(** * iPlug2 IGraphics: the base control [IControl] and the vector style base
      [IVectorBase]

    A shallow embedding of [IGraphics/IControl.h].  Methods of [IControl] are
    computations over a world made of the control's member variables and the
    trace of the calls that leave the control (to the editor delegate, to an
    attached action function, to an overridable hook, to the graphics
    context).  An [assert] that does not hold aborts the computation. *)

From Stdlib Require Import ZArith List Bool Lia PrimFloat.
Import ListNotations.

Open Scope Z_scope.

(** ** Scalars, sentinels and small structs *)

(** C++ [int]; the sizes and indices met here stay far from the 32-bit limits. *)
Definition int := Z.

(** C++ [double] is IEEE binary64, the kernel's primitive float. *)
Definition double := PrimFloat.float.

(** C++ [float] (binary32): every binary32 value is a binary64 value, so the
    same carrier holds it.  Binary32 arithmetic is never done with the binary64
    operations: where the code computes on [float]s the operations are taken as
    parameters. *)
Definition float := PrimFloat.float.

(** [kNoParameter] and [kNoValIdx] are declared outside this header; its
    comments give both as -1 ("If this is > -1 (kNoParameter)", "an integer
    > -1 (kNoValIdx)"). *)
Definition kNoParameter : int := -1.
Definition kNoValIdx : int := -1.
Definition kNoTag : int := -1.

(** [IRECT]: the four edges, as the header reads them ([fillRect.L], [.T],
    [.R], [.B]). *)
Record IRECT : Type := MakeIRECT { L : float; T : float; R : float; B : float }.

(** [ParamTuple]: one entry of [mVals], a linked parameter index (or
    [kNoParameter]) and a normalized value. *)
Record ParamTuple : Type := MakeParamTuple { idx : int; value : double }.

(** Function values ([std::function]) and object addresses are opaque
    identities; a null function or pointer is [None]. *)
Definition IActionFunction := option nat.
Definition IAnimationFunction := option nat.
Definition TimePoint := Z.
Definition Milliseconds := Z.

(** The part of [IGEditorDelegate] that [SetDelegate] reads. *)
Record IGEditorDelegate : Type := MakeDelegate {
  dlgAddr : nat;
  dlgGetUI : option nat
}.

(** ** Member variables of [IControl] *)

Record IControl : Type := MakeIControl {
  mTag : int;
  mRECT : IRECT;
  mTargetRECT : IRECT;
  mDirty : bool;
  mHide : bool;
  mGrayed : bool;
  mDisablePrompt : bool;
  mDblAsSingleClick : bool;
  mMOWhenGrayed : bool;
  mMEWhenGrayed : bool;
  mIgnoreMouse : bool;
  mWantsMidi : bool;
  mMouseIsOver : bool;
  mDelegate : option nat;
  mGraphics : option nat;
  mActionFunc : IActionFunction;
  mAnimationFunc : IAnimationFunction;
  mAnimationStartTime : TimePoint;
  mAnimationDuration : Milliseconds;
  mVals : list ParamTuple
}.

(** The default member initializers of the class, with both rectangles set to
    [bounds] and the animation clock zeroed. *)
Definition IControl_members (bounds : IRECT) : IControl :=
  {| mTag := kNoTag; mRECT := bounds; mTargetRECT := bounds;
     mDirty := true; mHide := false; mGrayed := false;
     mDisablePrompt := true; mDblAsSingleClick := false;
     mMOWhenGrayed := false; mMEWhenGrayed := false;
     mIgnoreMouse := false; mWantsMidi := false; mMouseIsOver := false;
     mDelegate := None; mGraphics := None;
     mActionFunc := None; mAnimationFunc := None;
     mAnimationStartTime := 0; mAnimationDuration := 0;
     mVals := [ {| idx := kNoParameter; value := 0%float |} ] |}.

(** Field updates. *)
Definition with_mTag (v : int) (c : IControl) : IControl :=
  MakeIControl v (mRECT c) (mTargetRECT c) (mDirty c) (mHide c) (mGrayed c)
    (mDisablePrompt c) (mDblAsSingleClick c) (mMOWhenGrayed c) (mMEWhenGrayed c)
    (mIgnoreMouse c) (mWantsMidi c) (mMouseIsOver c) (mDelegate c) (mGraphics c)
    (mActionFunc c) (mAnimationFunc c) (mAnimationStartTime c)
    (mAnimationDuration c) (mVals c).

Definition with_mRECT (v : IRECT) (c : IControl) : IControl :=
  MakeIControl (mTag c) v (mTargetRECT c) (mDirty c) (mHide c) (mGrayed c)
    (mDisablePrompt c) (mDblAsSingleClick c) (mMOWhenGrayed c) (mMEWhenGrayed c)
    (mIgnoreMouse c) (mWantsMidi c) (mMouseIsOver c) (mDelegate c) (mGraphics c)
    (mActionFunc c) (mAnimationFunc c) (mAnimationStartTime c)
    (mAnimationDuration c) (mVals c).

Definition with_mTargetRECT (v : IRECT) (c : IControl) : IControl :=
  MakeIControl (mTag c) (mRECT c) v (mDirty c) (mHide c) (mGrayed c)
    (mDisablePrompt c) (mDblAsSingleClick c) (mMOWhenGrayed c) (mMEWhenGrayed c)
    (mIgnoreMouse c) (mWantsMidi c) (mMouseIsOver c) (mDelegate c) (mGraphics c)
    (mActionFunc c) (mAnimationFunc c) (mAnimationStartTime c)
    (mAnimationDuration c) (mVals c).

Definition with_mDirty (v : bool) (c : IControl) : IControl :=
  MakeIControl (mTag c) (mRECT c) (mTargetRECT c) v (mHide c) (mGrayed c)
    (mDisablePrompt c) (mDblAsSingleClick c) (mMOWhenGrayed c) (mMEWhenGrayed c)
    (mIgnoreMouse c) (mWantsMidi c) (mMouseIsOver c) (mDelegate c) (mGraphics c)
    (mActionFunc c) (mAnimationFunc c) (mAnimationStartTime c)
    (mAnimationDuration c) (mVals c).

Definition with_mWantsMidi (v : bool) (c : IControl) : IControl :=
  MakeIControl (mTag c) (mRECT c) (mTargetRECT c) (mDirty c) (mHide c) (mGrayed c)
    (mDisablePrompt c) (mDblAsSingleClick c) (mMOWhenGrayed c) (mMEWhenGrayed c)
    (mIgnoreMouse c) v (mMouseIsOver c) (mDelegate c) (mGraphics c)
    (mActionFunc c) (mAnimationFunc c) (mAnimationStartTime c)
    (mAnimationDuration c) (mVals c).

Definition with_mMouseIsOver (v : bool) (c : IControl) : IControl :=
  MakeIControl (mTag c) (mRECT c) (mTargetRECT c) (mDirty c) (mHide c) (mGrayed c)
    (mDisablePrompt c) (mDblAsSingleClick c) (mMOWhenGrayed c) (mMEWhenGrayed c)
    (mIgnoreMouse c) (mWantsMidi c) v (mDelegate c) (mGraphics c)
    (mActionFunc c) (mAnimationFunc c) (mAnimationStartTime c)
    (mAnimationDuration c) (mVals c).

Definition with_mDelegate (v : option nat) (c : IControl) : IControl :=
  MakeIControl (mTag c) (mRECT c) (mTargetRECT c) (mDirty c) (mHide c) (mGrayed c)
    (mDisablePrompt c) (mDblAsSingleClick c) (mMOWhenGrayed c) (mMEWhenGrayed c)
    (mIgnoreMouse c) (mWantsMidi c) (mMouseIsOver c) v (mGraphics c)
    (mActionFunc c) (mAnimationFunc c) (mAnimationStartTime c)
    (mAnimationDuration c) (mVals c).

Definition with_mGraphics (v : option nat) (c : IControl) : IControl :=
  MakeIControl (mTag c) (mRECT c) (mTargetRECT c) (mDirty c) (mHide c) (mGrayed c)
    (mDisablePrompt c) (mDblAsSingleClick c) (mMOWhenGrayed c) (mMEWhenGrayed c)
    (mIgnoreMouse c) (mWantsMidi c) (mMouseIsOver c) (mDelegate c) v
    (mActionFunc c) (mAnimationFunc c) (mAnimationStartTime c)
    (mAnimationDuration c) (mVals c).

Definition with_mActionFunc (v : IActionFunction) (c : IControl) : IControl :=
  MakeIControl (mTag c) (mRECT c) (mTargetRECT c) (mDirty c) (mHide c) (mGrayed c)
    (mDisablePrompt c) (mDblAsSingleClick c) (mMOWhenGrayed c) (mMEWhenGrayed c)
    (mIgnoreMouse c) (mWantsMidi c) (mMouseIsOver c) (mDelegate c) (mGraphics c)
    v (mAnimationFunc c) (mAnimationStartTime c)
    (mAnimationDuration c) (mVals c).

Definition with_mAnimationFunc (v : IAnimationFunction) (c : IControl) : IControl :=
  MakeIControl (mTag c) (mRECT c) (mTargetRECT c) (mDirty c) (mHide c) (mGrayed c)
    (mDisablePrompt c) (mDblAsSingleClick c) (mMOWhenGrayed c) (mMEWhenGrayed c)
    (mIgnoreMouse c) (mWantsMidi c) (mMouseIsOver c) (mDelegate c) (mGraphics c)
    (mActionFunc c) v (mAnimationStartTime c)
    (mAnimationDuration c) (mVals c).

Definition with_mAnimationStartTime (v : TimePoint) (c : IControl) : IControl :=
  MakeIControl (mTag c) (mRECT c) (mTargetRECT c) (mDirty c) (mHide c) (mGrayed c)
    (mDisablePrompt c) (mDblAsSingleClick c) (mMOWhenGrayed c) (mMEWhenGrayed c)
    (mIgnoreMouse c) (mWantsMidi c) (mMouseIsOver c) (mDelegate c) (mGraphics c)
    (mActionFunc c) (mAnimationFunc c) v
    (mAnimationDuration c) (mVals c).

Definition with_mAnimationDuration (v : Milliseconds) (c : IControl) : IControl :=
  MakeIControl (mTag c) (mRECT c) (mTargetRECT c) (mDirty c) (mHide c) (mGrayed c)
    (mDisablePrompt c) (mDblAsSingleClick c) (mMOWhenGrayed c) (mMEWhenGrayed c)
    (mIgnoreMouse c) (mWantsMidi c) (mMouseIsOver c) (mDelegate c) (mGraphics c)
    (mActionFunc c) (mAnimationFunc c) (mAnimationStartTime c)
    v (mVals c).

Definition with_mVals (v : list ParamTuple) (c : IControl) : IControl :=
  MakeIControl (mTag c) (mRECT c) (mTargetRECT c) (mDirty c) (mHide c) (mGrayed c)
    (mDisablePrompt c) (mDblAsSingleClick c) (mMOWhenGrayed c) (mMEWhenGrayed c)
    (mIgnoreMouse c) (mWantsMidi c) (mMouseIsOver c) (mDelegate c) (mGraphics c)
    (mActionFunc c) (mAnimationFunc c) (mAnimationStartTime c)
    (mAnimationDuration c) v.

(** ** Calls that leave the control *)

(** The three hooks that [SetDelegate] and the rectangle setters call. *)
Inductive Hook : Type := HOnInit | HOnResize | HOnRescale.

Definition Hook_eq_dec (a b : Hook) : {a = b} + {a <> b}.
Proof. decide equality. Defined.

Inductive Event : Type :=
| NotifyParameterChanged (paramIdx : int) (normalizedValue : double)
    (** the delegate is told that a linked parameter changed *)
| ActionInvoked (f : nat)
    (** [mActionFunc(this)] *)
| HookCalled (h : Hook) (atDelegate atGraphics : option nat)
    (** a hook is entered; the two pointers are [mDelegate] and [mGraphics] as
        the hook finds them *).

Record World : Type := MakeWorld { ctl : IControl; trace : list Event }.

(** ** Computations: state passing with failure *)

(** What stops a computation: an [assert] that does not hold, or a read
    through a null pointer or outside a buffer. *)
Inductive failure : Type := AssertionFailed | InvalidAccess.

Inductive outcome (S A : Type) : Type :=
| Returned (a : A) (s : S)
| Failed (f : failure).
Arguments Returned {S A} a s.
Arguments Failed {S A} f.

Definition Comp (S A : Type) : Type := S -> outcome S A.

Definition ret {S A} (a : A) : Comp S A := fun s => Returned a s.

Definition bind {S A B} (m : Comp S A) (k : A -> Comp S B) : Comp S B :=
  fun s => match m s with
           | Returned a s' => k a s'
           | Failed f => Failed f
           end.

Definition fail {S A} (f : failure) : Comp S A := fun _ => Failed f.

Declare Scope comp_scope.
Delimit Scope comp_scope with comp.
Notation "x <- m ;; k" := (bind m (fun x => k))
  (at level 61, m at next level, right associativity) : comp_scope.
Notation "m ;; k" := (bind m (fun _ => k))
  (at level 61, right associativity) : comp_scope.
Open Scope comp_scope.

Definition assert {S} (b : bool) : Comp S unit :=
  if b then ret tt else fail AssertionFailed.

(** A read through a reference or pointer that may be invalid. *)
Definition deref {S A} (o : option A) : Comp S A :=
  match o with
  | Some a => ret a
  | None => fail InvalidAccess
  end.

(** Methods of a control run on the control and the trace. *)
Definition M (A : Type) : Type := Comp World A.

Definition gets {A} (f : IControl -> A) : M A := fun w => Returned (f (ctl w)) w.

Definition modify (f : IControl -> IControl) : M unit :=
  fun w => Returned tt (MakeWorld (f (ctl w)) (trace w)).

Definition emit (e : Event) : M unit :=
  fun w => Returned tt (MakeWorld (ctl w) (trace w ++ [e])).

(** [for (int v = first; ...; v++) body(v)] with a trip count fixed before the
    loop is entered. *)
Fixpoint for_upto (trips : nat) (v : int) (body : int -> M unit) : M unit :=
  match trips with
  | O => ret tt
  | S k => body v ;; for_upto k (v + 1) body
  end.

(** ** Overridable hooks *)

(** [OnInit], [OnResize] and [OnRescale] are virtual with empty bodies in
    [IControl]; a derived control supplies its own. *)
Class IControlOverrides : Type := {
  OnInit_body : IControl -> IControl;
  OnResize_body : IControl -> IControl;
  OnRescale_body : IControl -> IControl
}.

(** [IControl] itself: [virtual void OnInit() {}] and so on. *)
Definition IControl_base : IControlOverrides :=
  {| OnInit_body := fun c => c;
     OnResize_body := fun c => c;
     OnRescale_body := fun c => c |}.

Definition enter (h : Hook) : M unit :=
  fun w => emit (HookCalled h (mDelegate (ctl w)) (mGraphics (ctl w))) w.

Section Methods.
Context {V : IControlOverrides}.

Definition OnInit : M unit := enter HOnInit ;; modify OnInit_body.
Definition OnResize : M unit := enter HOnResize ;; modify OnResize_body.
Definition OnRescale : M unit := enter HOnRescale ;; modify OnRescale_body.

(** ** Methods defined in the header *)

Definition SetActionFunction (actionFunc : IActionFunction) : M unit :=
  modify (with_mActionFunc actionFunc).

(** [int NVals() const { return (int) mVals.size(); }] *)
Definition NVals : M int := gets (fun c => Z.of_nat (length (mVals c))).

(** [return mVals.size() == 1 ? 0 : kNoValIdx;] *)
Definition GetValIdxForPos (x y : float) : M int :=
  gets (fun c => if Nat.eqb (length (mVals c)) 1 then 0 else kNoValIdx).

Definition GetRECT : M IRECT := gets mRECT.

(** [mRECT = bounds; mMouseIsOver = false; OnResize();] *)
Definition SetRECT (bounds : IRECT) : M unit :=
  modify (with_mRECT bounds) ;;
  modify (with_mMouseIsOver false) ;;
  OnResize.

Definition GetTargetRECT : M IRECT := gets mTargetRECT.

(** [mTargetRECT = bounds; mMouseIsOver = false;] *)
Definition SetTargetRECT (bounds : IRECT) : M unit :=
  modify (with_mTargetRECT bounds) ;;
  modify (with_mMouseIsOver false).

(** [mRECT = mTargetRECT = bounds; mMouseIsOver = false; OnResize();] *)
Definition SetTargetAndDrawRECTs (bounds : IRECT) : M unit :=
  modify (with_mTargetRECT bounds) ;;
  modify (with_mRECT bounds) ;;
  modify (with_mMouseIsOver false) ;;
  OnResize.

Definition IsHidden : M bool := gets mHide.
Definition IsGrayed : M bool := gets mGrayed.

(** [virtual void SetClean() { mDirty = false; }] *)
Definition SetClean : M unit := modify (with_mDirty false).

Definition SetTag (tag : int) : M unit := modify (with_mTag tag).
Definition GetTag : M int := gets mTag.

(** [void SetWantsMidi(bool enable) { mWantsMidi = true; }] *)
Definition SetWantsMidi (enable : bool) : M unit := modify (with_mWantsMidi true).

(** [bool GetWantsMidi() const { return mWantsMidi; }] *)
Definition GetWantsMidi : M bool := gets mWantsMidi.

Definition GetDelegate : M (option nat) := gets mDelegate.
Definition GetUI : M (option nat) := gets mGraphics.

(** [mDelegate = &dlg; mGraphics = dlg.GetUI(); OnInit(); OnResize(); OnRescale();] *)
Definition SetDelegate (dlg : IGEditorDelegate) : M unit :=
  modify (with_mDelegate (Some (dlgAddr dlg))) ;;
  modify (with_mGraphics (dlgGetUI dlg)) ;;
  OnInit ;;
  OnResize ;;
  OnRescale.

Definition GetMouseIsOver : M bool := gets mMouseIsOver.

(** [StartAnimation(int duration)]: the clock is read once; its reading [now]
    is an input here.  [Milliseconds(duration)] holds the count [duration]. *)
Definition StartAnimation (now : TimePoint) (duration : int) : M unit :=
  modify (with_mAnimationStartTime now) ;;
  modify (with_mAnimationDuration duration).

(** [void SetAnimation(IAnimationFunction func) { mAnimationFunc = func; }] *)
Definition SetAnimation (func : IAnimationFunction) : M unit :=
  modify (with_mAnimationFunc func).

(** [SetAnimation(func, duration)]: [mAnimationFunc = func; StartAnimation(duration);] *)
Definition SetAnimation_for (now : TimePoint) (func : IAnimationFunction)
    (duration : int) : M unit :=
  modify (with_mAnimationFunc func) ;;
  StartAnimation now duration.

Definition GetAnimationFunction : M IAnimationFunction := gets mAnimationFunc.
Definition GetActionFunction : M IActionFunction := gets mActionFunc.

(** [ForValIdx(valIdx, func)]: one call for an individual value, or one call
    per value, with [nVals] read once before the loop. *)
Definition ForValIdx (valIdx : int) (func : int -> M unit) : M unit :=
  if valIdx >? kNoValIdx then
    func valIdx
  else
    nVals <- NVals ;;
    for_upto (Z.to_nat nVals) 0 func.

(** [SetNVals]: [assert(nVals > 0); mVals.resize(nVals);].  The element that
    [resize] appends is the default-constructed [ParamTuple], declared
    elsewhere and taken as [fresh]. *)
Definition vector_resize {A} (n : nat) (fresh : A) (l : list A) : list A :=
  firstn n l ++ repeat fresh (n - length l).

Definition SetNVals (fresh : ParamTuple) (nVals : int) : M unit :=
  assert (nVals >? 0) ;;
  modify (fun c => with_mVals (vector_resize (Z.to_nat nVals) fresh (mVals c)) c).

(** ** Methods declared in the header and defined elsewhere *)

(** Modelled from the spec: the valid value indices of the methods defined
    elsewhere.  An "out-of-range value index" is a precondition violation:
    "fail fast (assertion/panic)". *)
Definition in_range (valIdx : int) (c : IControl) : bool :=
  (valIdx >? kNoValIdx) && (valIdx <? Z.of_nat (length (mVals c))).

(** Modelled from the spec: the bounds-checked read of one entry of [mVals],
    shared by the accessors below ("implementations must bounds-check and
    fail fast (precondition violation)"). *)
Definition val_at (valIdx : int) : M ParamTuple :=
  ok <- gets (in_range valIdx) ;;
  assert ok ;;
  vals <- gets mVals ;;
  deref (nth_error vals (Z.to_nat valIdx)).

Fixpoint list_set {A} (l : list A) (n : nat) (a : A) : list A :=
  match l, n with
  | [], _ => []
  | _ :: t, O => a :: t
  | h :: t, S k => h :: list_set t k a
  end.

(** Modelled from the spec: the clamp of [SetValue], which "clamps [value] to
    [0,1]"; its definition is not in this header. *)
Definition Clip (x lo hi : double) : double :=
  if PrimFloat.ltb x lo then lo else if PrimFloat.ltb hi x then hi else x.

(** Modelled from the spec: [GetParamIdx], declared here and defined elsewhere.
    "[SetParamIdx] / [GetParamIdx] are independent per value index"; an
    out-of-range value index fails fast. *)
Definition GetParamIdx (valIdx : int) : M int :=
  pt <- val_at valIdx ;; ret (idx pt).

(** Modelled from the spec: [GetValue], declared here and defined elsewhere.
    "[GetValue(valIdx=0)] -> float in [0,1]; ... implementations must
    bounds-check and fail fast". *)
Definition GetValue (valIdx : int) : M double :=
  pt <- val_at valIdx ;; ret (value pt).

(** Modelled from the spec: [SetValue], declared here and defined elsewhere.
    "clamps [value] to [0,1], stores it, does not itself mark dirty or
    notify"; an out-of-range value index fails fast. *)
Definition SetValue (v : double) (valIdx : int) : M unit :=
  pt <- val_at valIdx ;;
  modify (fun c =>
    with_mVals (list_set (mVals c) (Z.to_nat valIdx)
                  {| idx := idx pt; value := Clip v 0%float 1%float |}) c).

(** Modelled from the spec: the per-value step of [SetDirty], whose definition
    is not in this header.  A value index "linked to a parameter" makes the
    control "notify the external owner with the current normalized value";
    linked means a parameter index above [kNoParameter]. *)
Definition paramUpdate (v : int) : M unit :=
  p <- GetParamIdx v ;;
  if p >? kNoParameter then
    x <- GetValue v ;;
    emit (NotifyParameterChanged p x)
  else ret tt.

(** Modelled from the spec: [SetDirty], declared here and defined elsewhere.
    "Always sets the dirty flag.  If [triggerAction] is true AND the addressed
    value index(es) are linked to a parameter, the control must notify the
    external owner with the current normalized value for each addressed
    index; if an action function is attached, it is invoked once regardless
    of parameter linkage. ... [valIdx = kAllValues] applies the operation to
    every owned value in ascending index order".  The header adds that "the
    argument is about whether a consecutive action should be performed", and
    its [ForValIdx] is the helper for one-or-all values. *)
Definition SetDirty (triggerAction : bool) (valIdx : int) : M unit :=
  modify (with_mDirty true) ;;
  if triggerAction then
    ForValIdx valIdx paramUpdate ;;
    f <- gets mActionFunc ;;
    match f with
    | Some a => emit (ActionInvoked a)
    | None => ret tt
    end
  else ret tt.

(** Modelled from the spec: [SetValueFromDelegate], declared here and defined
    elsewhere.  "Stores the value and marks the control dirty without
    triggering outward notification". *)
Definition SetValueFromDelegate (v : double) (valIdx : int) : M unit :=
  SetValue v valIdx ;;
  SetDirty false kNoValIdx.

(** Modelled from the spec: [SetValueFromUserInput], declared here and defined
    elsewhere.  "Stores the value and marks dirty with outward notification
    (the new value must propagate to the owner)"; it notifies "always", "for
    the addressed index only".  The notification carries the parameter index
    held at the addressed value index and the value as stored. *)
Definition SetValueFromUserInput (v : double) (valIdx : int) : M unit :=
  SetValue v valIdx ;;
  modify (with_mDirty true) ;;
  p <- GetParamIdx valIdx ;;
  x <- GetValue valIdx ;;
  emit (NotifyParameterChanged p x).

(** [OnEndAnimation]: [mAnimationFunc = nullptr; SetDirty(false);] *)
Definition OnEndAnimation : M unit :=
  modify (with_mAnimationFunc None) ;;
  SetDirty false kNoValIdx.

End Methods.

(** ** What the header takes from other headers *)

(** The methods of [IRECT] that the header calls, and the binary32 arithmetic
    of its [float] expressions.  Their definitions are outside this header;
    every result below holds whatever they are. *)
Class IRECT_methods : Type := {
  Contains : IRECT -> float -> float -> bool;
  Pad : IRECT -> float -> IRECT;
  Alter : IRECT -> float -> float -> float -> float -> IRECT;
  GetHSliced : IRECT -> float -> IRECT;
  GetVSliced : IRECT -> float -> IRECT;
  GetTranslated : IRECT -> float -> float -> IRECT;
  W : IRECT -> float;
  fmul : float -> float -> float;
  fdiv : float -> float -> float;
  fneg : float -> float
}.

(** [virtual bool IsHit(float x, float y) const { return mTargetRECT.Contains(x, y); }] *)
Definition IsHit {G : IRECT_methods} (x y : float) : M bool :=
  gets (fun c => Contains (mTargetRECT c) x y).

(** A geometry to run the definitions on: a half-open rectangle test and the
    plain edge arithmetic, computed in binary64. *)
Definition sample_geometry : IRECT_methods :=
  {| Contains := fun r x y =>
       (PrimFloat.leb (L r) x && PrimFloat.ltb x (R r)
        && PrimFloat.leb (T r) y && PrimFloat.ltb y (B r))%bool;
     Pad := fun r p =>
       MakeIRECT (L r - p)%float (T r - p)%float (R r + p)%float (B r + p)%float;
     Alter := fun r l t r' b =>
       MakeIRECT (L r + l)%float (T r + t)%float (R r + r')%float (B r + b)%float;
     GetHSliced := fun r d => MakeIRECT (L r) (T r) (R r) (B r - d)%float;
     GetVSliced := fun r d => MakeIRECT (L r) (T r) (R r - d)%float (B r);
     GetTranslated := fun r x y =>
       MakeIRECT (L r + x)%float (T r + y)%float (R r + x)%float (B r + y)%float;
     W := fun r => (R r - L r)%float;
     fmul := PrimFloat.mul;
     fdiv := PrimFloat.div;
     fneg := PrimFloat.opp |}.

(** ** [IVectorBase] *)

Record IColor : Type := MakeIColor { colA : int; colR : int; colG : int; colB : int }.

(** The color roles, in the order in which the constructors add them and
    [SetColors] stores them. *)
Definition kBG : int := 0.
Definition kFG : int := 1.
Definition kPR : int := 2.
Definition kFR : int := 3.
Definition kHL : int := 4.
Definition kSH : int := 5.
Definition kX1 : int := 6.
Definition kX2 : int := 7.
Definition kX3 : int := 8.

(** [mControl] is the control that the pointer designates, as it is when a
    method runs; [None] is the null pointer of a base that was never attached. *)
Record IVectorBase : Type := MakeIVectorBase {
  mControl : option IControl;
  mColors : list IColor;
  mRoundness : float;
  mShadowOffset : float;
  mFrameThickness : float;
  mDrawFrame : bool;
  mDrawShadows : bool;
  mEmboss : bool;
  mSplashRadius : float;
  mMaxSplashRadius : float
}.

(** The default member initializers of [IVectorBase]. *)
Definition IVectorBase_members : IVectorBase :=
  {| mControl := None; mColors := [];
     mRoundness := 0%float; mShadowOffset := 3%float; mFrameThickness := 2%float;
     mDrawFrame := true; mDrawShadows := true; mEmboss := false;
     mSplashRadius := 0%float; mMaxSplashRadius := 50%float |}.

Definition with_mColors (v : list IColor) (b : IVectorBase) : IVectorBase :=
  MakeIVectorBase (mControl b) v (mRoundness b) (mShadowOffset b)
    (mFrameThickness b) (mDrawFrame b) (mDrawShadows b) (mEmboss b)
    (mSplashRadius b) (mMaxSplashRadius b).

Definition with_mControl (v : option IControl) (b : IVectorBase) : IVectorBase :=
  MakeIVectorBase v (mColors b) (mRoundness b) (mShadowOffset b)
    (mFrameThickness b) (mDrawFrame b) (mDrawShadows b) (mEmboss b)
    (mSplashRadius b) (mMaxSplashRadius b).

(** [void AttachIControl(IControl* pControl) { mControl = pControl; }] *)
Definition AttachIControl (pControl : option IControl) (b : IVectorBase) : IVectorBase :=
  with_mControl pControl b.

(** [void AddColor(const IColor& color) { mColors.Add(color); }] *)
Definition AddColor (color : IColor) (b : IVectorBase) : IVectorBase :=
  with_mColors (mColors b ++ [color]) b.

(** [AddColors]: each of the nine pointers, in this order, adds the color it
    points to unless it is null. *)
Definition AddColor_if (p : option IColor) (b : IVectorBase) : IVectorBase :=
  match p with
  | Some color => AddColor color b
  | None => b
  end.

Definition AddColors
    (pBGColor pFGColor pPRColor pFRColor pHLColor pSHColor
     pX1Color pX2Color pX3Color : option IColor) (b : IVectorBase) : IVectorBase :=
  let b := AddColor_if pBGColor b in
  let b := AddColor_if pFGColor b in
  let b := AddColor_if pPRColor b in
  let b := AddColor_if pFRColor b in
  let b := AddColor_if pHLColor b in
  let b := AddColor_if pSHColor b in
  let b := AddColor_if pX1Color b in
  let b := AddColor_if pX2Color b in
  let b := AddColor_if pX3Color b in
  b.

(** [IVectorBase(pBGColor, ..., pX3Color)]: the constructor from nine pointers. *)
Definition IVectorBase_new
    (pBGColor pFGColor pPRColor pFRColor pHLColor pSHColor
     pX1Color pX2Color pX3Color : option IColor) : IVectorBase :=
  AddColors pBGColor pFGColor pPRColor pFRColor pHLColor pSHColor
    pX1Color pX2Color pX3Color IVectorBase_members.

(** [IVColorSpec] and the constructor [IVectorBase(const IVColorSpec& spec)]. *)
Record IVColorSpec : Type := MakeIVColorSpec {
  mBGColor : IColor; mFGColor : IColor; mPRColor : IColor;
  mFRColor : IColor; mHLColor : IColor; mSHColor : IColor;
  mX1Color : IColor; mX2Color : IColor; mX3Color : IColor
}.

Definition IVectorBase_of_spec (spec : IVColorSpec) : IVectorBase :=
  AddColors (Some (mBGColor spec)) (Some (mFGColor spec)) (Some (mPRColor spec))
    (Some (mFRColor spec)) (Some (mHLColor spec)) (Some (mSHColor spec))
    (Some (mX1Color spec)) (Some (mX2Color spec)) (Some (mX3Color spec))
    IVectorBase_members.

(** [mColors.Get()[i]]: a read of the buffer, defined inside it only. *)
Definition buf_read {A} (buf : list A) (i : int) : option A :=
  if (0 <=? i) && (i <? Z.of_nat (length buf)) then nth_error buf (Z.to_nat i) else None.

(** [GetColor]:
    [if(colorIdx < mColors.GetSize()) return mColors.Get()[colorIdx];
     else return mColors.Get()[0];] *)
Definition GetColor (b : IVectorBase) (colorIdx : int) : option IColor :=
  if colorIdx <? Z.of_nat (length (mColors b)) then
    buf_read (mColors b) colorIdx
  else
    buf_read (mColors b) 0.

(** ** Drawing *)

(** The calls on the graphics context that the header makes. *)
Inductive DrawOp : Type :=
| FillRect (color : IColor) (bounds : IRECT)
| FillRoundRect (color : IColor) (bounds : IRECT) (cornerRadius : float)
| PathRect (bounds : IRECT)
| PathFill (color : IColor)
| FillCircle (color : IColor) (cx cy r : float)
| DrawRoundRect (color : IColor) (bounds : IRECT) (cornerRadius : float)
    (pBlend : option nat) (thickness : float).

(** The graphics context: the last mouse-down point and the calls drawn so far. *)
Record IGraphics : Type := MakeIGraphics {
  mouseDownPoint : float * float;
  drawn : list DrawOp
}.

Definition Draw (A : Type) : Type := Comp IGraphics A.

Definition draw (op : DrawOp) : Draw unit :=
  fun g => Returned tt (MakeIGraphics (mouseDownPoint g) (drawn g ++ [op])).

Definition GetMouseDownPoint : Draw (float * float) :=
  fun g => Returned (mouseDownPoint g) g.

Section VectorDrawing.
Context {G : IRECT_methods}.

(** [GetAdjustedHandleBounds]:
    [if(mDrawFrame) handleBounds.Pad(- 0.5f * mFrameThickness);
     if (mDrawShadows && !mEmboss) handleBounds.Alter(0, 0, -mShadowOffset, -mShadowOffset);] *)
Definition GetAdjustedHandleBounds (b : IVectorBase) (handleBounds : IRECT) : IRECT :=
  let handleBounds :=
    if mDrawFrame b
    then Pad handleBounds (fmul (fneg 0.5%float) (mFrameThickness b))
    else handleBounds in
  let handleBounds :=
    if mDrawShadows b && negb (mEmboss b)
    then Alter handleBounds 0%float 0%float
           (fneg (mShadowOffset b)) (fneg (mShadowOffset b))
    else handleBounds in
  handleBounds.

(** [DrawSplash]: a filled circle at the mouse-down point. *)
Definition DrawSplash (b : IVectorBase) : Draw unit :=
  p <- GetMouseDownPoint ;;
  hl <- deref (GetColor b kHL) ;;
  draw (FillCircle hl (fst p) (snd p) (mSplashRadius b)).

Definition when {S} (cond : bool) (m : Comp S unit) : Comp S unit :=
  if cond then m else ret tt.

(** [DrawVectorButton(g, bounds, pressed, mouseOver)], statement by statement. *)
Definition DrawVectorButton (b : IVectorBase) (bounds : IRECT)
    (pressed mouseOver : bool) : Draw IRECT :=
  bg <- deref (GetColor b kBG) ;;
  draw (FillRect bg bounds) ;;
  let handleBounds := GetAdjustedHandleBounds b bounds in
  let cornerRadius := fmul (mRoundness b) (fdiv (W handleBounds) 2%float) in
  (if pressed then
     pr <- deref (GetColor b kPR) ;;
     draw (FillRoundRect pr handleBounds cornerRadius) ;;
     when (mDrawShadows b && mEmboss b)
       (draw (PathRect (GetHSliced handleBounds (mShadowOffset b))) ;;
        draw (PathRect (GetVSliced handleBounds (mShadowOffset b))) ;;
        sh <- deref (GetColor b kSH) ;;
        draw (PathFill sh))
   else
     when (mDrawShadows b && negb (mEmboss b))
       (sh <- deref (GetColor b kSH) ;;
        draw (FillRoundRect sh
                (GetTranslated handleBounds (mShadowOffset b) (mShadowOffset b))
                cornerRadius)) ;;
     fg <- deref (GetColor b kFG) ;;
     draw (FillRoundRect fg handleBounds cornerRadius)) ;;
  (when mouseOver
     (hl <- deref (GetColor b kHL) ;;
      draw (FillRoundRect hl handleBounds cornerRadius))) ;;
  pControl <- deref (mControl b) ;;
  (when (match mAnimationFunc pControl with Some _ => true | None => false end)
     (DrawSplash b)) ;;
  (when (mDrawFrame b)
     (fr <- deref (GetColor b kFR) ;;
      draw (DrawRoundRect fr handleBounds cornerRadius None (mFrameThickness b)))) ;;
  ret handleBounds.

End VectorDrawing.

(** ** Reading a trace *)

(** The notifications sent to the delegate, in the order sent. *)
Fixpoint notifications (tr : list Event) : list (int * double) :=
  match tr with
  | [] => []
  | NotifyParameterChanged p x :: t => (p, x) :: notifications t
  | _ :: t => notifications t
  end.

(** The action functions invoked, in order. *)
Fixpoint actions (tr : list Event) : list nat :=
  match tr with
  | [] => []
  | ActionInvoked f :: t => f :: actions t
  | _ :: t => actions t
  end.

(** The hooks entered, in order. *)
Fixpoint hooks_called (tr : list Event) : list Hook :=
  match tr with
  | [] => []
  | HookCalled h _ _ :: t => h :: hooks_called t
  | _ :: t => hooks_called t
  end.

(** What one value and the action function contribute to the trace of a
    triggering [SetDirty]. *)
Definition notify_of (pt : ParamTuple) : list Event :=
  if idx pt >? kNoParameter
  then [ NotifyParameterChanged (idx pt) (value pt) ]
  else [].

Definition action_of (c : IControl) : list Event :=
  match mActionFunc c with
  | Some f => [ ActionInvoked f ]
  | None => []
  end.

(** ** Sample objects *)

Definition unit_square : IRECT := MakeIRECT 0%float 0%float 100%float 100%float.

(** A freshly built control with one unlinked value. *)
Definition plain_control : IControl := IControl_members unit_square.

(** A control with three values linked to the parameters 4, 5 and 9, and an
    action function. *)
Definition three_knobs : IControl :=
  with_mActionFunc (Some 1%nat)
    (with_mVals [ MakeParamTuple 4 0.25%float;
                  MakeParamTuple 5 0.5%float;
                  MakeParamTuple 9 1%float ] plain_control).

(** A clean control with a running animation. *)
Definition animating_control : IControl :=
  with_mDirty false (with_mAnimationFunc (Some 2%nat) plain_control).

Definition black : IColor := MakeIColor 255 0 0 0.
Definition white : IColor := MakeIColor 255 255 255 255.
Definition gray (n : int) : IColor := MakeIColor 255 n n n.

(** A vector base built from a color spec and attached to [plain_control]. *)
Definition sample_spec : IVColorSpec :=
  MakeIVColorSpec white (gray 200) (gray 150) black (gray 230) (gray 60)
    (gray 10) (gray 20) (gray 30).

Definition styled_base : IVectorBase :=
  AttachIControl (Some plain_control) (IVectorBase_of_spec sample_spec).

(** A vector base built with nine null color pointers. *)
Definition colorless_base : IVectorBase :=
  AttachIControl (Some plain_control)
    (IVectorBase_new None None None None None None None None None).

Definition blank_canvas : IGraphics := MakeIGraphics (10%float, 20%float) [].

(** ** Sequences of calls *)

(** [func] run on each index of a list, in order, stopping at a failure. *)
Fixpoint run_each (vs : list int) (func : int -> M unit) : M unit :=
  match vs with
  | [] => ret tt
  | v :: rest => func v ;; run_each rest func
  end.

(** The value indices 0, 1, ..., n-1. *)
Definition indices (n : nat) : list int := map Z.of_nat (seq 0 n).

(** The methods with a body in the header that change the control, as calls a
    client or a derived control can make. *)
Inductive HeaderCall : Type :=
| CallSetActionFunction (actionFunc : IActionFunction)
| CallSetRECT (bounds : IRECT)
| CallSetTargetRECT (bounds : IRECT)
| CallSetTargetAndDrawRECTs (bounds : IRECT)
| CallSetClean
| CallSetTag (tag : int)
| CallSetWantsMidi (enable : bool)
| CallSetDelegate (dlg : IGEditorDelegate)
| CallStartAnimation (now : TimePoint) (duration : int)
| CallSetAnimation (func : IAnimationFunction)
| CallSetAnimation_for (now : TimePoint) (func : IAnimationFunction) (duration : int)
| CallSetNVals (fresh : ParamTuple) (nVals : int).

Definition call {V : IControlOverrides} (op : HeaderCall) : M unit :=
  match op with
  | CallSetActionFunction f => SetActionFunction f
  | CallSetRECT r => SetRECT r
  | CallSetTargetRECT r => SetTargetRECT r
  | CallSetTargetAndDrawRECTs r => SetTargetAndDrawRECTs r
  | CallSetClean => SetClean
  | CallSetTag t => SetTag t
  | CallSetWantsMidi e => SetWantsMidi e
  | CallSetDelegate d => SetDelegate d
  | CallStartAnimation now d => StartAnimation now d
  | CallSetAnimation f => SetAnimation f
  | CallSetAnimation_for now f d => SetAnimation_for now f d
  | CallSetNVals fresh n => SetNVals fresh n
  end.

Fixpoint calls {V : IControlOverrides} (ops : list HeaderCall) : M unit :=
  match ops with
  | [] => ret tt
  | op :: rest => call op ;; calls rest
  end.

(** ** The setters of [IVectorBase] *)

(** [buf.Get()[i] = a]: a write to the buffer, defined inside it only. *)
Definition buf_write {A} (buf : list A) (i : int) (a : A) : option (list A) :=
  if (0 <=? i) && (i <? Z.of_nat (length buf))
  then Some (list_set buf (Z.to_nat i) a)
  else None.

Definition with_style (drawFrame drawShadows emboss : bool)
    (roundness frameThickness shadowOffset : float) (b : IVectorBase) : IVectorBase :=
  MakeIVectorBase (mControl b) (mColors b) roundness shadowOffset frameThickness
    drawFrame drawShadows emboss (mSplashRadius b) (mMaxSplashRadius b).

(** A vector base together with the trace of its attached control. *)
Record VWorld : Type := MakeVWorld { vbase : IVectorBase; vtrace : list Event }.

Definition VComp (A : Type) : Type := Comp VWorld A.

(** [mColors.Get()[i] = color] *)
Definition store_color (i : int) (color : IColor) : VComp unit :=
  fun vw =>
    match buf_write (mColors (vbase vw)) i color with
    | Some colors => Returned tt (MakeVWorld (with_mColors colors (vbase vw)) (vtrace vw))
    | None => Failed InvalidAccess
    end.

Section VectorSetters.

(** [SetDirty] is virtual: the setters reach the one of the attached control
    through [mControl]. *)
Variable SetDirty_v : bool -> int -> M unit.

(** [mControl->SetDirty(triggerAction)], with the default [valIdx]. *)
Definition mControl_SetDirty (triggerAction : bool) : VComp unit :=
  fun vw =>
    match mControl (vbase vw) with
    | None => Failed InvalidAccess
    | Some c =>
        match SetDirty_v triggerAction kNoValIdx (MakeWorld c (vtrace vw)) with
        | Returned _ w' =>
            Returned tt (MakeVWorld (with_mControl (Some (ctl w')) (vbase vw)) (trace w'))
        | Failed f => Failed f
        end
    end.

(** [SetColor]:
    [if(colorIdx < mColors.GetSize()) mColors.Get()[colorIdx] = color;
     mControl->SetDirty(false);] *)
Definition SetColor (colorIdx : int) (color : IColor) : VComp unit :=
  (fun vw =>
     if colorIdx <? Z.of_nat (length (mColors (vbase vw)))
     then store_color colorIdx color vw
     else Returned tt vw) ;;
  mControl_SetDirty false.

(** [SetColors(BGColor, ..., X3Color)]: nine stores, then
    [mControl->SetDirty(false)]. *)
Definition SetColors
    (BGColor FGColor PRColor FRColor HLColor SHColor
     X1Color X2Color X3Color : IColor) : VComp unit :=
  store_color kBG BGColor ;;
  store_color kFG FGColor ;;
  store_color kPR PRColor ;;
  store_color kFR FRColor ;;
  store_color kHL HLColor ;;
  store_color kSH SHColor ;;
  store_color kX1 X1Color ;;
  store_color kX2 X2Color ;;
  store_color kX3 X3Color ;;
  mControl_SetDirty false.

(** [SetColors(const IVColorSpec& spec)] *)
Definition SetColors_spec (spec : IVColorSpec) : VComp unit :=
  SetColors (mBGColor spec) (mFGColor spec) (mPRColor spec) (mFRColor spec)
    (mHLColor spec) (mSHColor spec) (mX1Color spec) (mX2Color spec) (mX3Color spec).

(** [Style]: the six style members are assigned as given, then
    [SetColors(spec)]. *)
Definition Style (drawFrame drawShadows emboss : bool)
    (roundness frameThickness shadowOffset : float) (spec : IVColorSpec) : VComp unit :=
  (fun vw =>
     Returned tt
       (MakeVWorld
          (with_style drawFrame drawShadows emboss roundness frameThickness
             shadowOffset (vbase vw))
          (vtrace vw))) ;;
  SetColors_spec spec.

End VectorSetters.

(** ** [IBitmapBase] *)

(** [IBlend]: a blend method and a weight. *)
Record IBlend : Type := MakeIBlend { mMethod : nat; mWeight : float }.

(** [IBitmapBase]; the bitmap is an opaque identity. *)
Record IBitmapBase : Type := MakeIBitmapBase { mBitmap : nat; mBlend : IBlend }.

(** [GrayOut]: [mBlend.mWeight = (gray ? GRAYED_ALPHA : 1.0f);].  [GRAYED_ALPHA]
    is defined outside the header and taken as a parameter. *)
Definition IBitmapBase_GrayOut (GRAYED_ALPHA : float) (gray : bool)
    (b : IBitmapBase) : IBitmapBase :=
  MakeIBitmapBase (mBitmap b)
    (MakeIBlend (mMethod (mBlend b)) (if gray then GRAYED_ALPHA else 1%float)).

(** [void SetBlend(const IBlend& blend) { mBlend = blend; }] *)
Definition SetBlend (blend : IBlend) (b : IBitmapBase) : IBitmapBase :=
  MakeIBitmapBase (mBitmap b) blend.

(** ** [ILambdaControl] *)

Module ILambdaControl.

(** The modifier keys of a mouse event, opaque here. *)
Inductive IMouseMod : Type := MakeIMouseMod (keys : nat).

Record IMouseInfo : Type := MakeIMouseInfo { x : float; y : float; ms : IMouseMod }.

(** The members that [ILambdaControl] adds to [IControl].  Its own
    [mAnimationDuration] is an [int], apart from the clock member of the same
    name in [IControl]. *)
Record Members : Type := MakeMembers {
  mMouseInfo : IMouseInfo;
  mLoopAnimation : bool;
  mAnimationDuration : int
}.

Record LWorld : Type := MakeLWorld { members : Members; world : World }.

Definition LComp (A : Type) : Type := Comp LWorld A.

(** A method of [IControl] run on the control part. *)
Definition base {A} (m : M A) : LComp A :=
  fun lw =>
    match m (world lw) with
    | Returned a w' => Returned a (MakeLWorld (members lw) w')
    | Failed f => Failed f
    end.

(** [mMouseInfo.x = x; mMouseInfo.y = y; mMouseInfo.ms = mod;] *)
Definition record_mouse (x y : float) (mods : IMouseMod) : LComp unit :=
  fun lw =>
    Returned tt
      (MakeLWorld
         (MakeMembers (MakeIMouseInfo x y mods)
            (mLoopAnimation (members lw)) (mAnimationDuration (members lw)))
         (world lw)).

Section Methods.

(** The clock reading of a call, the animation function that the control
    installs ([DefaultAnimationFunc], defined elsewhere) and the virtual
    [SetDirty]. *)
Variable now : TimePoint.
Variable DefaultAnimationFunc : nat.
Variable SetDirty_v : bool -> int -> M unit.

(** [OnMouseDown]: the mouse is recorded, then
    [SetAnimation(DefaultAnimationFunc); StartAnimation(mAnimationDuration);] *)
Definition OnMouseDown (x y : float) (mods : IMouseMod) : LComp unit :=
  record_mouse x y mods ;;
  base (SetAnimation (Some DefaultAnimationFunc)) ;;
  (fun lw => base (StartAnimation now (mAnimationDuration (members lw))) lw).

Definition OnMouseUp (x y : float) (mods : IMouseMod) : LComp unit :=
  record_mouse x y mods.

Definition OnMouseDrag (x y dX dY : float) (mods : IMouseMod) : LComp unit :=
  record_mouse x y mods.

Definition OnMouseDblClick (x y : float) (mods : IMouseMod) : LComp unit :=
  record_mouse x y mods.

Definition GetMouseInfo : LComp IMouseInfo :=
  fun lw => Returned (mMouseInfo (members lw)) lw.

(** [OnEndAnimation]:
    [if(mLoopAnimation && mAnimationDuration) StartAnimation(mAnimationDuration);
     else SetAnimation(nullptr);
     SetDirty(false);] *)
Definition rearm_or_clear : LComp unit :=
  fun lw =>
    if mLoopAnimation (members lw) && negb (mAnimationDuration (members lw) =? 0)
    then base (StartAnimation now (mAnimationDuration (members lw))) lw
    else base (SetAnimation None) lw.

Definition OnEndAnimation : LComp unit :=
  rearm_or_clear ;;
  base (SetDirty_v false kNoValIdx).

End Methods.

End ILambdaControl.

(** ** [IVTrackControlBase] *)

(** [EDirection], as the header uses it. *)
Inductive EDirection : Type := kVertical | kHorizontal.

(** What the drawing of tracks takes from other headers: [IRECT::FracRect]
    and the binary32 sum and difference. *)
Class Track_methods : Type := {
  FracRect : IRECT -> EDirection -> double -> IRECT;
  fadd : float -> float -> float;
  fsub : float -> float -> float
}.

(** The calls on the graphics context that a track control makes. *)
Inductive TrackDrawOp : Type :=
| TrackFillRect (color : IColor) (bounds : IRECT)
| TrackDrawRect (color : IColor) (bounds : IRECT) (pBlend : option nat)
    (thickness : float).

(** A counting loop in any computation. *)
Fixpoint for_count {S} (trips : nat) (v : int) (body : int -> Comp S unit) : Comp S unit :=
  match trips with
  | O => ret tt
  | Datatypes.S k => body v ;; for_count k (v + 1) body
  end.

Module IVTrackControlBase.

(** The members that the class adds to [IControl] and [IVectorBase]. *)
Record Members : Type := MakeMembers {
  mDirection : EDirection;
  mTrackBounds : list IRECT;
  mMinTrackValue : float;
  mMaxTrackValue : float;
  mOuterPadding : float;
  mTrackPadding : float;
  mPeakSize : float;
  mDrawTrackFrame : bool
}.

Record Object : Type := MakeObject {
  control : IControl;
  vector : IVectorBase;
  own : Members
}.

Definition Painter (A : Type) : Type := Comp (list TrackDrawOp) A.

Definition paint (op : TrackDrawOp) : Painter unit :=
  fun ops => Returned tt (ops ++ [op]).

Section Methods.
Context {K : Track_methods}.

(** [GetValue] is defined outside the header; the one of the control is taken
    as it is, and read without keeping its effects. *)
Variable GetValue_v : int -> M double.
Variable this : Object.

Definition value_of (chIdx : int) : Painter double :=
  fun ops =>
    match GetValue_v chIdx (MakeWorld (control this) []) with
    | Returned v _ => Returned v ops
    | Failed f => Failed f
    end.

(** [g.DrawRect(GetColor(kFR), mRECT, nullptr, mFrameThickness);] *)
Definition DrawFrame : Painter unit :=
  fr <- deref (GetColor (vector this) kFR) ;;
  paint (TrackDrawRect fr (mRECT (control this)) None (mFrameThickness (vector this))).

(** [g.FillRect(GetColor(kSH), r);] *)
Definition DrawTrackBG (r : IRECT) (chIdx : int) : Painter unit :=
  sh <- deref (GetColor (vector this) kSH) ;;
  paint (TrackFillRect sh r).

(** [g.FillRect(GetColor(kHL), r);] *)
Definition DrawPeak (r : IRECT) (chIdx : int) : Painter unit :=
  hl <- deref (GetColor (vector this) kHL) ;;
  paint (TrackFillRect hl r).

(** [DrawTrackHandle]: the filled fraction of the track, then its peak. *)
Definition DrawTrackHandle (r : IRECT) (chIdx : int) : Painter unit :=
  v <- value_of chIdx ;;
  let fillRect := FracRect r (mDirection (own this)) v in
  fg <- deref (GetColor (vector this) kFG) ;;
  paint (TrackFillRect fg fillRect) ;;
  let peakRect :=
    match mDirection (own this) with
    | kVertical =>
        MakeIRECT (L fillRect) (T fillRect) (R fillRect)
          (fadd (T fillRect) (mPeakSize (own this)))
    | kHorizontal =>
        MakeIRECT (fsub (R fillRect) (mPeakSize (own this))) (T fillRect)
          (R fillRect) (B fillRect)
    end in
  DrawPeak peakRect chIdx.

(** [DrawTrack]: background, handle, and the track frame if it is on. *)
Definition DrawTrack (r : IRECT) (chIdx : int) : Painter unit :=
  DrawTrackBG r chIdx ;;
  DrawTrackHandle r chIdx ;;
  when (mDrawTrackFrame (own this))
    (fr <- deref (GetColor (vector this) kFR) ;;
     paint (TrackDrawRect fr r None (mFrameThickness (vector this)))).

(** [Draw]: the background, one track per value, the frame if it is on. *)
Definition Draw : Painter unit :=
  let nVals := Z.of_nat (length (mVals (control this))) in
  bg <- deref (GetColor (vector this) kBG) ;;
  paint (TrackFillRect bg (mRECT (control this))) ;;
  for_count (Z.to_nat nVals) 0
    (fun ch =>
       r <- deref (buf_read (mTrackBounds (own this)) ch) ;;
       DrawTrack r ch) ;;
  when (mDrawFrame (vector this)) DrawFrame.

End Methods.

End IVTrackControlBase.

(** What [Draw] is to paint for one track: its bounds, its value, the colors. *)
Definition track_ops {K : Track_methods} (dir : EDirection) (peakSize : float)
    (trackFrame : bool) (thickness : float) (sh fg hl fr : IColor)
    (item : IRECT * ParamTuple) : list TrackDrawOp :=
  let r := fst item in
  let fillRect := FracRect r dir (value (snd item)) in
  [ TrackFillRect sh r;
    TrackFillRect fg fillRect;
    TrackFillRect hl
      (match dir with
       | kVertical =>
           MakeIRECT (L fillRect) (T fillRect) (R fillRect) (fadd (T fillRect) peakSize)
       | kHorizontal =>
           MakeIRECT (fsub (R fillRect) peakSize) (T fillRect) (R fillRect) (B fillRect)
       end) ]
  ++ (if trackFrame then [ TrackDrawRect fr r None thickness ] else []).

(** A stand-in for the [IRECT] arithmetic of tracks, computed in binary64. *)
Definition sample_tracks : Track_methods :=
  {| FracRect := fun r dir frac =>
       match dir with
       | kVertical => MakeIRECT (L r) (B r - frac * (B r - T r))%float (R r) (B r)
       | kHorizontal => MakeIRECT (L r) (T r) (L r + frac * (R r - L r))%float (B r)
       end;
     fadd := PrimFloat.add;
     fsub := PrimFloat.sub |}.

(** ** More sample objects *)

(** A base that stores three colors only: built with six null pointers. *)
Definition short_base : IVectorBase :=
  AttachIControl (Some plain_control)
    (IVectorBase_new (Some white) (Some black) (Some (gray 9))
       None None None None None None).

(** A base that was never attached to a control. *)
Definition detached_base : IVectorBase := IVectorBase_of_spec sample_spec.

Definition red : IColor := MakeIColor 255 255 0 0.

(** A three-track meter over [three_knobs]. *)
Definition three_tracks : IVTrackControlBase.Object :=
  IVTrackControlBase.MakeObject three_knobs styled_base
    (IVTrackControlBase.MakeMembers kVertical
       [ MakeIRECT 0%float 0%float 30%float 100%float;
         MakeIRECT 35%float 0%float 65%float 100%float;
         MakeIRECT 70%float 0%float 100%float 100%float ]
       0%float 1%float 10%float 2%float 5%float true).

(** A run of header calls on a fresh control: grow to three values, attach,
    move both rectangles, shrink to one value. *)
Definition sample_calls : list HeaderCall :=
  [ CallSetNVals (MakeParamTuple kNoParameter 0%float) 3;
    CallSetDelegate (MakeDelegate 7 (Some 8%nat));
    CallSetTargetAndDrawRECTs unit_square;
    CallSetNVals (MakeParamTuple kNoParameter 0%float) 1 ].

(** The control that this run leaves: attached to delegate 7 and graphics
    context 8, with one value. *)
Definition after_sample_calls : IControl :=
  {| mTag := kNoTag; mRECT := unit_square; mTargetRECT := unit_square;
     mDirty := true; mHide := false; mGrayed := false;
     mDisablePrompt := true; mDblAsSingleClick := false;
     mMOWhenGrayed := false; mMEWhenGrayed := false;
     mIgnoreMouse := false; mWantsMidi := false; mMouseIsOver := false;
     mDelegate := Some 7%nat; mGraphics := Some 8%nat;
     mActionFunc := None; mAnimationFunc := None;
     mAnimationStartTime := 0; mAnimationDuration := 0;
     mVals := [ {| idx := kNoParameter; value := 0%float |} ] |}.

Definition after_sample_trace : list Event :=
  [ HookCalled HOnInit (Some 7%nat) (Some 8%nat);
    HookCalled HOnResize (Some 7%nat) (Some 8%nat);
    HookCalled HOnRescale (Some 7%nat) (Some 8%nat);
    HookCalled HOnResize (Some 7%nat) (Some 8%nat) ].

(** A lambda control that loops a 100 ms animation. *)
Definition looping_lambda : ILambdaControl.LWorld :=
  ILambdaControl.MakeLWorld
    (ILambdaControl.MakeMembers
       (ILambdaControl.MakeIMouseInfo 0%float 0%float (ILambdaControl.MakeIMouseMod 0))
       true 100)
    (MakeWorld animating_control []).

(** * Properties *)

(** ** Running the definitions *)

Example SetDirty_three_knobs_trace :
  exists w', @SetDirty true kNoValIdx (MakeWorld three_knobs []) = Returned tt w'
    /\ trace w' = [ NotifyParameterChanged 4 0.25%float;
                    NotifyParameterChanged 5 0.5%float;
                    NotifyParameterChanged 9 1%float;
                    ActionInvoked 1 ].
Proof. eexists; split; reflexivity. Qed.

Example SetValue_out_of_range_asserts :
  SetValue 0.5%float 3 (MakeWorld three_knobs []) = Failed AssertionFailed.
Proof. reflexivity. Qed.

Example SetNVals_zero_asserts :
  SetNVals (MakeParamTuple kNoParameter 0%float) 0 (MakeWorld plain_control [])
  = Failed AssertionFailed.
Proof. reflexivity. Qed.

Example Clip_above : Clip 1.75%float 0%float 1%float = 1%float.
Proof. reflexivity. Qed.

Example Clip_below : Clip (-3)%float 0%float 1%float = 0%float.
Proof. reflexivity. Qed.

Example Clip_inside : Clip 0.5%float 0%float 1%float = 0.5%float.
Proof. reflexivity. Qed.

Example GetColor_fallback : GetColor styled_base 12 = Some white.
Proof. reflexivity. Qed.

(** ** Flags and the animation clock *)

(** C9.  [SetWantsMidi] ignores its argument: whatever [enable] is, and so for
    [enable = false] too, the control reports [GetWantsMidi() == true]
    afterwards; the setter cannot turn the flag off. *)
Theorem SetWantsMidi_ignores_argument :
  forall (enable : bool) (w : World),
    (SetWantsMidi enable ;; GetWantsMidi) w
      = Returned true (MakeWorld (with_mWantsMidi true (ctl w)) (trace w))
    /\ (SetWantsMidi false ;; GetWantsMidi) w
      = (SetWantsMidi true ;; GetWantsMidi) w.
Proof.
  intros enable w. split; reflexivity.
Qed.

(** C5, as the header has it: [StartAnimation] has no precondition.  For every
    duration, zero and negative ones included, it returns normally after
    recording the clock reading and the duration as given. *)
Theorem StartAnimation_total :
  forall (now : TimePoint) (duration : int) (w : World),
    exists w',
      StartAnimation now duration w = Returned tt w'
      /\ mAnimationStartTime (ctl w') = now
      /\ mAnimationDuration (ctl w') = duration
      /\ mAnimationFunc (ctl w') = mAnimationFunc (ctl w)
      /\ mDirty (ctl w') = mDirty (ctl w)
      /\ mVals (ctl w') = mVals (ctl w)
      /\ trace w' = trace w.
Proof.
  intros now duration [c tr].
  eexists. split; [ reflexivity | ].
  cbn. repeat split.
Qed.

(** C5, against the claim: with [duration = 0] and with [duration = -5] the
    call does not stop on an assertion; it returns and the non-positive
    duration is recorded. *)
Lemma StartAnimation_nonpositive_recorded :
  (exists w', StartAnimation 1000 0 (MakeWorld plain_control []) = Returned tt w'
              /\ mAnimationDuration (ctl w') = 0)
  /\ (exists w', StartAnimation 1000 (-5) (MakeWorld plain_control []) = Returned tt w'
                 /\ mAnimationDuration (ctl w') = -5)
  /\ StartAnimation 1000 0 (MakeWorld plain_control []) <> Failed AssertionFailed.
Proof.
  split; [ | split ].
  - eexists; split; reflexivity.
  - eexists; split; reflexivity.
  - discriminate.
Qed.

(** ** Attaching a control *)

(** C6.  [SetDelegate] first assigns [mDelegate] and [mGraphics], then enters
    [OnInit], [OnResize] and [OnRescale] in that order, each once, whatever
    the three hooks are overridden with; [OnInit] finds both references
    assigned. *)
Theorem SetDelegate_hook_order :
  forall (V : IControlOverrides) (dlg : IGEditorDelegate) (w : World),
    let c1 := with_mGraphics (dlgGetUI dlg)
                (with_mDelegate (Some (dlgAddr dlg)) (ctl w)) in
    let c2 := OnInit_body c1 in
    let c3 := OnResize_body c2 in
    let evs := [ HookCalled HOnInit (Some (dlgAddr dlg)) (dlgGetUI dlg);
                 HookCalled HOnResize (mDelegate c2) (mGraphics c2);
                 HookCalled HOnRescale (mDelegate c3) (mGraphics c3) ] in
    SetDelegate dlg w = Returned tt (MakeWorld (OnRescale_body c3) (trace w ++ evs))
    /\ hooks_called evs = [ HOnInit; HOnResize; HOnRescale ]
    /\ (forall h, count_occ Hook_eq_dec (hooks_called evs) h = 1%nat)
    /\ mDelegate c1 = Some (dlgAddr dlg)
    /\ mGraphics c1 = dlgGetUI dlg.
Proof.
  intros V dlg [c tr]. cbv zeta.
  split.
  - unfold SetDelegate, OnInit, OnResize, OnRescale, enter, bind, modify, emit.
    cbn. rewrite <- !app_assoc. reflexivity.
  - split; [ reflexivity | ].
    split; [ | split; reflexivity ].
    intros h. destruct h; reflexivity.
Qed.

(** With the hooks of [IControl] itself, every hook finds the new delegate and
    graphics context, and nothing else of the control changes. *)
Lemma SetDelegate_base :
  forall (dlg : IGEditorDelegate) (w : World),
    @SetDelegate IControl_base dlg w
    = Returned tt
        (MakeWorld
           (with_mGraphics (dlgGetUI dlg) (with_mDelegate (Some (dlgAddr dlg)) (ctl w)))
           (trace w ++ map (fun h => HookCalled h (Some (dlgAddr dlg)) (dlgGetUI dlg))
                         [ HOnInit; HOnResize; HOnRescale ])).
Proof.
  intros dlg [c tr].
  unfold SetDelegate, OnInit, OnResize, OnRescale, enter, bind, modify, emit.
  cbn. rewrite <- !app_assoc. reflexivity.
Qed.

(** ** Hit testing *)

(** C7.  The default hit test answers [true] exactly when the target bounds
    contain the point.  The default [GetValIdxForPos] answers 0 at every
    position when the control owns exactly one value, and [kNoValIdx] at every
    position when it owns more than one. *)
Theorem default_hit_routing :
  forall (G : IRECT_methods) (x y : float) (w : World),
    (exists hit, IsHit x y w = Returned hit w
                 /\ (hit = true <-> Contains (mTargetRECT (ctl w)) x y = true))
    /\ (length (mVals (ctl w)) = 1%nat -> GetValIdxForPos x y w = Returned 0 w)
    /\ ((1 < length (mVals (ctl w)))%nat ->
        GetValIdxForPos x y w = Returned kNoValIdx w).
Proof.
  intros G x y w. split; [ | split ].
  - exists (Contains (mTargetRECT (ctl w)) x y). split; [ reflexivity | tauto ].
  - intros one. unfold GetValIdxForPos, gets. rewrite one. reflexivity.
  - intros many. unfold GetValIdxForPos, gets.
    destruct (Nat.eqb_spec (length (mVals (ctl w))) 1) as [e | _].
    + rewrite e in many. lia.
    + reflexivity.
Qed.

(** C7 at work: a one-value control and a three-value control, hit inside and
    missed outside the square [0,100) x [0,100). *)
Lemma default_hit_routing_witness :
  @IsHit sample_geometry 10%float 10%float (MakeWorld plain_control [])
    = Returned true (MakeWorld plain_control [])
  /\ @IsHit sample_geometry 10%float 150%float (MakeWorld plain_control [])
    = Returned false (MakeWorld plain_control [])
  /\ GetValIdxForPos 10%float 10%float (MakeWorld plain_control [])
    = Returned 0 (MakeWorld plain_control [])
  /\ GetValIdxForPos 10%float 10%float (MakeWorld three_knobs [])
    = Returned kNoValIdx (MakeWorld three_knobs []).
Proof.
  split; [ reflexivity | ].
  split; [ reflexivity | ].
  split.
  - apply (default_hit_routing sample_geometry 10%float 10%float
             (MakeWorld plain_control [])).
    reflexivity.
  - apply (default_hit_routing sample_geometry 10%float 10%float
             (MakeWorld three_knobs [])).
    simpl. lia.
Defined.

(** ** The palette *)

Lemma buf_read_inside :
  forall (A : Type) (buf : list A) (i : int),
    0 <= i < Z.of_nat (length buf) ->
    exists a, nth_error buf (Z.to_nat i) = Some a /\ buf_read buf i = Some a.
Proof.
  intros A buf i [lo hi].
  destruct (nth_error buf (Z.to_nat i)) as [a | ] eqn:E.
  - exists a. split; [ reflexivity | ].
    unfold buf_read.
    replace (0 <=? i) with true by (symmetry; apply Z.leb_le; exact lo).
    replace (i <? Z.of_nat (length buf)) with true
      by (symmetry; apply Z.ltb_lt; exact hi).
    exact E.
  - apply nth_error_None in E. lia.
Qed.

(** C10, as the code has it: when at least one color is stored, [GetColor]
    returns the color at index 0 for every index not smaller than the number
    of stored colors, and the color stored at the index for every index from
    0 up to that number. *)
Theorem GetColor_nonempty_palette :
  forall (b : IVectorBase) (first : IColor) (rest : list IColor) (colorIdx : int),
    mColors b = first :: rest ->
    (Z.of_nat (length (mColors b)) <= colorIdx -> GetColor b colorIdx = Some first)
    /\ (0 <= colorIdx < Z.of_nat (length (mColors b)) ->
        exists c, nth_error (mColors b) (Z.to_nat colorIdx) = Some c
                  /\ GetColor b colorIdx = Some c).
Proof.
  intros b first rest colorIdx palette. split.
  - intros beyond. unfold GetColor.
    destruct (Z.ltb_spec colorIdx (Z.of_nat (length (mColors b)))) as [inside | _].
    + lia.
    + rewrite palette. reflexivity.
  - intros inside. unfold GetColor.
    destruct (Z.ltb_spec colorIdx (Z.of_nat (length (mColors b)))) as [_ | beyond].
    + apply buf_read_inside. exact inside.
    + lia.
Qed.

Lemma GetColor_nonempty_palette_witness :
  GetColor styled_base 12 = Some white
  /\ exists c, nth_error (mColors styled_base) (Z.to_nat kPR) = Some c
               /\ GetColor styled_base kPR = Some c.
Proof.
  split.
  - apply (GetColor_nonempty_palette styled_base white (tl (mColors styled_base)) 12).
    + reflexivity.
    + simpl. lia.
  - apply (GetColor_nonempty_palette styled_base white (tl (mColors styled_base)) kPR).
    + reflexivity.
    + simpl. unfold kPR. lia.
Defined.

(** C10, against the claim: a vector base built with nine null color pointers
    stores no color; index 0 is then not smaller than the number of stored
    colors, and the fallback read at index 0 is itself outside the buffer. *)
Lemma GetColor_empty_palette_reads_outside :
  mColors colorless_base = []
  /\ Z.of_nat (length (mColors colorless_base)) <= kBG
  /\ GetColor colorless_base kBG = None.
Proof.
  split; [ reflexivity | ].
  split; [ simpl; unfold kBG; lia | reflexivity ].
Qed.

(** The guard of [GetColor] has no lower bound: a negative index is read as
    it is. *)
Lemma GetColor_negative_index : GetColor styled_base (-1) = None.
Proof. reflexivity. Qed.

(** ** Values, the dirty flag and notifications *)

Lemma notifications_app :
  forall tr1 tr2, notifications (tr1 ++ tr2) = notifications tr1 ++ notifications tr2.
Proof.
  induction tr1 as [ | e tr1 IH]; intros tr2.
  - reflexivity.
  - destruct e; simpl; rewrite IH; reflexivity.
Qed.

Lemma actions_app :
  forall tr1 tr2, actions (tr1 ++ tr2) = actions tr1 ++ actions tr2.
Proof.
  induction tr1 as [ | e tr1 IH]; intros tr2.
  - reflexivity.
  - destruct e; simpl; rewrite IH; reflexivity.
Qed.

Lemma in_range_iff :
  forall valIdx c,
    in_range valIdx c = true <-> 0 <= valIdx < Z.of_nat (length (mVals c)).
Proof.
  intros valIdx c. unfold in_range, kNoValIdx.
  rewrite andb_true_iff, Z.gtb_ltb, !Z.ltb_lt. lia.
Qed.

Lemma val_at_valid :
  forall valIdx c tr,
    0 <= valIdx < Z.of_nat (length (mVals c)) ->
    exists pt, nth_error (mVals c) (Z.to_nat valIdx) = Some pt
               /\ val_at valIdx (MakeWorld c tr) = Returned pt (MakeWorld c tr).
Proof.
  intros valIdx c tr valid.
  destruct (nth_error (mVals c) (Z.to_nat valIdx)) as [pt | ] eqn:E.
  - exists pt. split; [ reflexivity | ].
    apply in_range_iff in valid.
    unfold val_at, bind, gets. cbn [ctl]. rewrite valid. cbn. rewrite E. reflexivity.
  - apply nth_error_None in E. lia.
Qed.

Lemma val_at_nth :
  forall valIdx c tr pt,
    0 <= valIdx ->
    nth_error (mVals c) (Z.to_nat valIdx) = Some pt ->
    val_at valIdx (MakeWorld c tr) = Returned pt (MakeWorld c tr).
Proof.
  intros valIdx c tr pt lo E.
  assert (hi : (Z.to_nat valIdx < length (mVals c))%nat).
  { apply nth_error_Some. rewrite E. discriminate. }
  assert (valid : in_range valIdx c = true) by (apply in_range_iff; lia).
  unfold val_at, bind, gets. cbn [ctl]. rewrite valid. cbn. rewrite E. reflexivity.
Qed.

Lemma list_set_same :
  forall (A : Type) (l : list A) n a,
    (n < length l)%nat -> nth_error (list_set l n a) n = Some a.
Proof.
  induction l as [ | h t IH]; intros [ | n] a bound; simpl in *; try lia.
  - reflexivity.
  - apply IH. lia.
Qed.

(** What [SetValue] does at a valid index. *)
Lemma SetValue_valid :
  forall (v : double) (valIdx : int) (c : IControl) (tr : list Event),
    0 <= valIdx < Z.of_nat (length (mVals c)) ->
    exists pt,
      nth_error (mVals c) (Z.to_nat valIdx) = Some pt
      /\ SetValue v valIdx (MakeWorld c tr)
         = Returned tt
             (MakeWorld
                (with_mVals (list_set (mVals c) (Z.to_nat valIdx)
                               (MakeParamTuple (idx pt) (Clip v 0%float 1%float))) c)
                tr).
Proof.
  intros v valIdx c tr valid.
  destruct (val_at_valid valIdx c tr valid) as [pt [E run]].
  exists pt. split; [ exact E | ].
  unfold SetValue, bind. rewrite run. reflexivity.
Qed.

(** Reading back the entry that [SetValue] wrote. *)
Lemma val_at_after_set :
  forall (valIdx : int) (c : IControl) (tr : list Event) (pt : ParamTuple),
    0 <= valIdx < Z.of_nat (length (mVals c)) ->
    val_at valIdx
      (MakeWorld (with_mVals (list_set (mVals c) (Z.to_nat valIdx) pt) c) tr)
    = Returned pt
        (MakeWorld (with_mVals (list_set (mVals c) (Z.to_nat valIdx) pt) c) tr).
Proof.
  intros valIdx c tr pt valid.
  apply val_at_nth; [ lia | ].
  cbn [mVals with_mVals]. apply list_set_same. lia.
Qed.

(** C4.  At a valid value index, [SetValue(v, valIdx)] followed by
    [GetValue(valIdx)] yields [v] clamped to [0,1]; [SetValue] leaves the dirty
    flag as it was and sends nothing. *)
Theorem SetValue_then_GetValue :
  forall (v : double) (valIdx : int) (w : World),
    0 <= valIdx < Z.of_nat (length (mVals (ctl w))) ->
    exists w',
      SetValue v valIdx w = Returned tt w'
      /\ GetValue valIdx w' = Returned (Clip v 0%float 1%float) w'
      /\ (SetValue v valIdx ;; GetValue valIdx) w
         = Returned (Clip v 0%float 1%float) w'
      /\ mDirty (ctl w') = mDirty (ctl w)
      /\ trace w' = trace w.
Proof.
  intros v valIdx [c tr] valid. cbn [ctl] in valid.
  destruct (SetValue_valid v valIdx c tr valid) as [pt [E run]].
  eexists. split; [ exact run | ].
  assert (back : forall w', SetValue v valIdx (MakeWorld c tr) = Returned tt w' ->
                            GetValue valIdx w' = Returned (Clip v 0%float 1%float) w').
  { intros w' run'. rewrite run in run'. injection run' as <-.
    unfold GetValue, bind. rewrite val_at_after_set by exact valid. reflexivity. }
  split; [ apply back; exact run | ].
  split.
  - unfold bind at 1. rewrite run. apply back. exact run.
  - split; reflexivity.
Qed.

Lemma SetValue_then_GetValue_witness :
  exists w',
    SetValue 1.75%float 1 (MakeWorld three_knobs []) = Returned tt w'
    /\ GetValue 1 w' = Returned (Clip 1.75%float 0%float 1%float) w'
    /\ (SetValue 1.75%float 1 ;; GetValue 1) (MakeWorld three_knobs [])
       = Returned (Clip 1.75%float 0%float 1%float) w'
    /\ mDirty (ctl w') = mDirty three_knobs
    /\ trace w' = [].
Proof.
  apply (SetValue_then_GetValue 1.75%float 1 (MakeWorld three_knobs [])).
  simpl. lia.
Defined.

(** One step of the notification loop. *)
Lemma paramUpdate_at :
  forall (v : int) (c : IControl) (tr : list Event) (pt : ParamTuple),
    0 <= v ->
    nth_error (mVals c) (Z.to_nat v) = Some pt ->
    paramUpdate v (MakeWorld c tr) = Returned tt (MakeWorld c (tr ++ notify_of pt)).
Proof.
  intros v c tr pt lo E.
  unfold paramUpdate, GetParamIdx, GetValue, bind at 1 2.
  rewrite (val_at_nth v c tr pt lo E). cbn [ret].
  unfold notify_of.
  destruct (idx pt >? kNoParameter).
  - unfold bind. rewrite (val_at_nth v c tr pt lo E). reflexivity.
  - rewrite app_nil_r. reflexivity.
Qed.

(** The loop of [ForValIdx] over the values not yet visited. *)
Lemma for_upto_paramUpdate :
  forall (rest done : list ParamTuple) (c : IControl) (tr : list Event),
    mVals c = done ++ rest ->
    for_upto (length rest) (Z.of_nat (length done)) paramUpdate (MakeWorld c tr)
    = Returned tt (MakeWorld c (tr ++ flat_map notify_of rest)).
Proof.
  induction rest as [ | pt rest IH]; intros done c tr split_vals.
  - simpl. rewrite app_nil_r. reflexivity.
  - cbn [length for_upto flat_map]. unfold bind.
    rewrite (paramUpdate_at _ c tr pt).
    + replace (Z.of_nat (length done) + 1) with (Z.of_nat (length (done ++ [pt])))
        by (rewrite length_app; simpl; lia).
      rewrite (IH (done ++ [pt]) c (tr ++ notify_of pt)).
      * rewrite <- app_assoc. reflexivity.
      * rewrite <- app_assoc. exact split_vals.
    + lia.
    + rewrite Nat2Z.id, split_vals, nth_error_app2 by lia.
      rewrite Nat.sub_diag. reflexivity.
Qed.

(** [SetDirty(true)] over all values. *)
Lemma SetDirty_all :
  forall (c : IControl) (tr : list Event),
    SetDirty true kNoValIdx (MakeWorld c tr)
    = Returned tt
        (MakeWorld (with_mDirty true c)
           (tr ++ flat_map notify_of (mVals c) ++ action_of c)).
Proof.
  intros c tr.
  unfold SetDirty, ForValIdx, NVals, bind at 1 2 3, modify, gets. cbn.
  rewrite Nat2Z.id.
  pose proof (for_upto_paramUpdate (mVals c) [] (with_mDirty true c) tr eq_refl) as loop.
  cbn [length Z.of_nat] in loop. cbn [with_mDirty mVals] in loop.
  rewrite loop. unfold action_of. cbn.
  destruct (mActionFunc c); unfold emit, ret; cbn.
  - rewrite <- app_assoc. reflexivity.
  - rewrite app_nil_r. reflexivity.
Qed.

(** [SetDirty(true, valIdx)] for one valid value index. *)
Lemma SetDirty_one :
  forall (valIdx : int) (c : IControl) (tr : list Event) (pt : ParamTuple),
    0 <= valIdx ->
    nth_error (mVals c) (Z.to_nat valIdx) = Some pt ->
    SetDirty true valIdx (MakeWorld c tr)
    = Returned tt
        (MakeWorld (with_mDirty true c) (tr ++ notify_of pt ++ action_of c)).
Proof.
  intros valIdx c tr pt lo E.
  unfold SetDirty, ForValIdx, bind at 1 2, modify. cbn.
  replace (valIdx >? kNoValIdx) with true
    by (symmetry; unfold kNoValIdx; rewrite Z.gtb_ltb; apply Z.ltb_lt; lia).
  rewrite (paramUpdate_at valIdx (with_mDirty true c) tr pt lo E).
  unfold bind, gets, action_of. cbn.
  destruct (mActionFunc c); unfold emit, ret; cbn.
  - rewrite <- app_assoc. reflexivity.
  - rewrite app_nil_r. reflexivity.
Qed.

(** [SetDirty(false, ...)] only sets the flag. *)
Lemma SetDirty_quiet :
  forall (valIdx : int) (w : World),
    SetDirty false valIdx w = Returned tt (MakeWorld (with_mDirty true (ctl w)) (trace w)).
Proof. reflexivity. Qed.

Lemma flat_map_notify_linked :
  forall vals : list ParamTuple,
    (forall pt, In pt vals -> idx pt > kNoParameter) ->
    flat_map notify_of vals
    = map (fun pt => NotifyParameterChanged (idx pt) (value pt)) vals.
Proof.
  induction vals as [ | pt vals IH]; intros linked.
  - reflexivity.
  - cbn [flat_map map]. rewrite IH by (intros q inq; apply linked; right; exact inq).
    unfold notify_of.
    replace (idx pt >? kNoParameter) with true; [ reflexivity | ].
    symmetry. rewrite Z.gtb_ltb. apply Z.ltb_lt.
    specialize (linked pt (or_introl eq_refl)). lia.
Qed.

Lemma notifications_of_notify :
  forall vals : list ParamTuple,
    notifications (map (fun pt => NotifyParameterChanged (idx pt) (value pt)) vals)
    = map (fun pt => (idx pt, value pt)) vals.
Proof.
  induction vals as [ | pt vals IH]; simpl; [ | rewrite IH ]; reflexivity.
Qed.

Lemma actions_of_notify :
  forall vals : list ParamTuple,
    actions (map (fun pt => NotifyParameterChanged (idx pt) (value pt)) vals) = [].
Proof.
  induction vals as [ | pt vals IH]; simpl; [ reflexivity | exact IH ].
Qed.

(** C1.  On a control whose N values are all linked to parameters,
    [SetDirty(true, kNoValIdx)] (the all-values sentinel) sends exactly N
    notifications, the i-th for the i-th value with its parameter index and
    current value, and then invokes the action function once if one is
    attached. *)
Theorem SetDirty_all_values_in_order :
  forall w : World,
    (forall pt, In pt (mVals (ctl w)) -> idx pt > kNoParameter) ->
    exists (w' : World) (evs : list Event),
      SetDirty true kNoValIdx w = Returned tt w'
      /\ trace w' = trace w ++ evs
      /\ evs = map (fun pt => NotifyParameterChanged (idx pt) (value pt)) (mVals (ctl w))
               ++ action_of (ctl w)
      /\ notifications evs = map (fun pt => (idx pt, value pt)) (mVals (ctl w))
      /\ length (notifications evs) = length (mVals (ctl w))
      /\ (forall (i : nat) (pt : ParamTuple),
             nth_error (mVals (ctl w)) i = Some pt ->
             nth_error (notifications evs) i = Some (idx pt, value pt))
      /\ actions evs = match mActionFunc (ctl w) with Some f => [f] | None => [] end
      /\ mDirty (ctl w') = true.
Proof.
  intros [c tr] linked. cbn [ctl] in *.
  eexists. eexists. split; [ apply SetDirty_all | ].
  rewrite (flat_map_notify_linked _ linked).
  split; [ reflexivity | ].
  split; [ reflexivity | ].
  assert (sent : notifications
                   (map (fun pt => NotifyParameterChanged (idx pt) (value pt)) (mVals c)
                    ++ action_of c)
                 = map (fun pt => (idx pt, value pt)) (mVals c)).
  { rewrite notifications_app, notifications_of_notify.
    unfold action_of. destruct (mActionFunc c); simpl; apply app_nil_r. }
  split; [ exact sent | ].
  split; [ rewrite sent; apply length_map | ].
  split.
  { intros i pt at_i. rewrite sent.
    apply (map_nth_error (fun q => (idx q, value q)) i (mVals c)). exact at_i. }
  split; [ | reflexivity ].
  rewrite actions_app, actions_of_notify.
  unfold action_of. destruct (mActionFunc c); reflexivity.
Qed.

Lemma SetDirty_all_values_in_order_witness :
  exists (w' : World) (evs : list Event),
    SetDirty true kNoValIdx (MakeWorld three_knobs []) = Returned tt w'
    /\ trace w' = [] ++ evs
    /\ evs = [ NotifyParameterChanged 4 0.25%float;
               NotifyParameterChanged 5 0.5%float;
               NotifyParameterChanged 9 1%float;
               ActionInvoked 1 ]
    /\ notifications evs = [ (4, 0.25%float); (5, 0.5%float); (9, 1%float) ]
    /\ length (notifications evs) = 3%nat
    /\ (forall (i : nat) (pt : ParamTuple),
           nth_error (mVals three_knobs) i = Some pt ->
           nth_error (notifications evs) i = Some (idx pt, value pt))
    /\ actions evs = [ 1%nat ]
    /\ mDirty (ctl w') = true.
Proof.
  apply (SetDirty_all_values_in_order (MakeWorld three_knobs [])).
  simpl. intros pt [<- | [<- | [<- | []]]]; simpl; unfold kNoParameter; lia.
Defined.

Lemma GetValue_nth :
  forall (valIdx : int) (c : IControl) (tr : list Event) (pt : ParamTuple),
    0 <= valIdx ->
    nth_error (mVals c) (Z.to_nat valIdx) = Some pt ->
    GetValue valIdx (MakeWorld c tr) = Returned (value pt) (MakeWorld c tr).
Proof.
  intros valIdx c tr pt lo E.
  unfold GetValue, bind. rewrite (val_at_nth valIdx c tr pt lo E). reflexivity.
Qed.

(** C2.  At a valid value index both entry points store the clamped value and
    mark the control dirty.  [SetValueFromDelegate] sends nothing to the
    delegate.  [SetValueFromUserInput] always sends a notification, and
    exactly one: for the addressed value index only, with the parameter index
    held there and the value as stored. *)
Theorem SetValueFromDelegate_vs_UserInput :
  forall (v : double) (valIdx : int) (w : World),
    0 <= valIdx < Z.of_nat (length (mVals (ctl w))) ->
    exists pt : ParamTuple,
      nth_error (mVals (ctl w)) (Z.to_nat valIdx) = Some pt
      /\ (exists wd,
             SetValueFromDelegate v valIdx w = Returned tt wd
             /\ GetValue valIdx wd = Returned (Clip v 0%float 1%float) wd
             /\ mDirty (ctl wd) = true
             /\ trace wd = trace w)
      /\ (exists wu,
             SetValueFromUserInput v valIdx w = Returned tt wu
             /\ GetValue valIdx wu = Returned (Clip v 0%float 1%float) wu
             /\ mDirty (ctl wu) = true
             /\ trace wu
                = trace w ++ [ NotifyParameterChanged (idx pt) (Clip v 0%float 1%float) ]
             /\ notifications (trace wu)
                = notifications (trace w) ++ [ (idx pt, Clip v 0%float 1%float) ]).
Proof.
  intros v valIdx [c tr] valid. cbn [ctl trace] in *.
  destruct (SetValue_valid v valIdx c tr valid) as [pt [E run]].
  exists pt. split; [ exact E | ].
  set (stored := MakeParamTuple (idx pt) (Clip v 0%float 1%float)) in *.
  set (c1 := with_mVals (list_set (mVals c) (Z.to_nat valIdx) stored) c) in *.
  assert (E1 : nth_error (mVals (with_mDirty true c1)) (Z.to_nat valIdx) = Some stored).
  { subst c1. cbn [mVals with_mVals with_mDirty]. apply list_set_same. lia. }
  assert (lo : 0 <= valIdx) by lia.
  split.
  - exists (MakeWorld (with_mDirty true c1) tr).
    split.
    + unfold SetValueFromDelegate, bind. rewrite run. apply SetDirty_quiet.
    + split; [ | split; reflexivity ].
      apply (GetValue_nth valIdx (with_mDirty true c1) tr stored lo E1).
  - exists (MakeWorld (with_mDirty true c1)
              (tr ++ [ NotifyParameterChanged (idx pt) (Clip v 0%float 1%float) ])).
    split.
    + unfold SetValueFromUserInput, bind at 1. rewrite run.
      unfold bind at 1, modify. cbn [ctl trace].
      unfold GetParamIdx, bind at 1 2.
      rewrite (val_at_nth valIdx (with_mDirty true c1) tr stored lo E1). cbn [ret].
      unfold bind at 1.
      rewrite (GetValue_nth valIdx (with_mDirty true c1) tr stored lo E1).
      reflexivity.
    + split.
      * apply (GetValue_nth valIdx (with_mDirty true c1) _ stored lo E1).
      * split; [ reflexivity | ].
        split; [ reflexivity | ].
        cbn [trace]. rewrite notifications_app. reflexivity.
Qed.

Lemma SetValueFromDelegate_vs_UserInput_witness :
  exists pt : ParamTuple,
    nth_error (mVals three_knobs) 1 = Some pt
    /\ (exists wd,
           SetValueFromDelegate 0.75%float 1 (MakeWorld three_knobs []) = Returned tt wd
           /\ GetValue 1 wd = Returned (Clip 0.75%float 0%float 1%float) wd
           /\ mDirty (ctl wd) = true
           /\ trace wd = [])
    /\ (exists wu,
           SetValueFromUserInput 0.75%float 1 (MakeWorld three_knobs []) = Returned tt wu
           /\ GetValue 1 wu = Returned (Clip 0.75%float 0%float 1%float) wu
           /\ mDirty (ctl wu) = true
           /\ trace wu
              = [] ++ [ NotifyParameterChanged (idx pt) (Clip 0.75%float 0%float 1%float) ]
           /\ notifications (trace wu)
              = [] ++ [ (idx pt, Clip 0.75%float 0%float 1%float) ]).
Proof.
  apply (SetValueFromDelegate_vs_UserInput 0.75%float 1 (MakeWorld three_knobs [])).
  simpl. lia.
Defined.

(** ** The end of an animation *)

(** C3, as the code has it: the default [OnEndAnimation] clears the animation
    function and, through [SetDirty(false)], leaves the control marked dirty;
    it changes no value and sends nothing. *)
Theorem OnEndAnimation_clears_and_marks_dirty :
  forall w : World,
    exists w',
      OnEndAnimation w = Returned tt w'
      /\ mAnimationFunc (ctl w') = None
      /\ mDirty (ctl w') = true
      /\ mVals (ctl w') = mVals (ctl w)
      /\ trace w' = trace w.
Proof.
  intros [c tr]. eexists. split.
  - unfold OnEndAnimation, bind, modify. cbn [ctl trace]. apply SetDirty_quiet.
  - cbn. repeat split.
Qed.

(** C3, against the claim: a clean control with a running animation is dirty,
    not clean, once the default [OnEndAnimation] has run. *)
Lemma OnEndAnimation_dirty_flag_set :
  mDirty animating_control = false
  /\ exists w',
       OnEndAnimation (MakeWorld animating_control []) = Returned tt w'
       /\ mAnimationFunc (ctl w') = None
       /\ mDirty (ctl w') = true
       /\ mDirty (ctl w') <> false.
Proof.
  split; [ reflexivity | ].
  eexists. split; [ reflexivity | ].
  split; [ reflexivity | ].
  split; [ reflexivity | discriminate ].
Qed.

(** ** The vector button *)

Lemma GetColor_defined :
  forall (b : IVectorBase) (k : int),
    mColors b <> [] -> 0 <= k -> exists c, GetColor b k = Some c.
Proof.
  intros b k stored lo. unfold GetColor.
  destruct (Z.ltb_spec k (Z.of_nat (length (mColors b)))) as [inside | beyond].
  - destruct (buf_read_inside _ (mColors b) k (conj lo inside)) as [c [_ rd]].
    exists c. exact rd.
  - destruct (mColors b) as [ | first rest]; [ congruence | ].
    exists first. reflexivity.
Qed.

(** C8.  On a base attached to a control and storing at least one color,
    [DrawVectorButton] draws, in this order: the background fill; the drop
    shadow (unpressed, shadows on, emboss off); the handle fill in the pressed
    or the foreground color; the inner shadow path (pressed, shadows on,
    emboss on); the hover highlight (mouse over); the splash (animation
    function set); the frame stroke (framed).  When framed, the frame stroke
    is the last operation drawn. *)
Theorem DrawVectorButton_compositing_order :
  forall (G : IRECT_methods) (b : IVectorBase) (c : IControl) (bounds : IRECT)
         (pressed mouseOver : bool) (g : IGraphics),
    mControl b = Some c ->
    mColors b <> [] ->
    exists bg fg pr fr hl sh : IColor,
      GetColor b kBG = Some bg /\ GetColor b kFG = Some fg
      /\ GetColor b kPR = Some pr /\ GetColor b kFR = Some fr
      /\ GetColor b kHL = Some hl /\ GetColor b kSH = Some sh
      /\ let hb := GetAdjustedHandleBounds b bounds in
         let cr := fmul (mRoundness b) (fdiv (W hb) 2%float) in
         let background := [ FillRect bg bounds ] in
         let drop_shadow :=
           if negb pressed && mDrawShadows b && negb (mEmboss b)
           then [ FillRoundRect sh
                    (GetTranslated hb (mShadowOffset b) (mShadowOffset b)) cr ]
           else [] in
         let fill := [ FillRoundRect (if pressed then pr else fg) hb cr ] in
         let inner_shadow :=
           if pressed && mDrawShadows b && mEmboss b
           then [ PathRect (GetHSliced hb (mShadowOffset b));
                  PathRect (GetVSliced hb (mShadowOffset b));
                  PathFill sh ]
           else [] in
         let hover := if mouseOver then [ FillRoundRect hl hb cr ] else [] in
         let splash :=
           match mAnimationFunc c with
           | Some _ => [ FillCircle hl (fst (mouseDownPoint g))
                           (snd (mouseDownPoint g)) (mSplashRadius b) ]
           | None => []
           end in
         let frame := DrawRoundRect fr hb cr None (mFrameThickness b) in
         let below := background ++ drop_shadow ++ fill ++ inner_shadow
                      ++ hover ++ splash in
         DrawVectorButton b bounds pressed mouseOver g
         = Returned hb
             (MakeIGraphics (mouseDownPoint g)
                (drawn g ++ below ++ (if mDrawFrame b then [ frame ] else [])))
         /\ (mDrawFrame b = true ->
             exists g',
               DrawVectorButton b bounds pressed mouseOver g = Returned hb g'
               /\ drawn g' = (drawn g ++ below) ++ [ frame ]).
Proof.
  intros G b c bounds pressed mouseOver g attached stored.
  destruct (GetColor_defined b kBG stored) as [bg Hbg]; [ unfold kBG; lia | ].
  destruct (GetColor_defined b kFG stored) as [fg Hfg]; [ unfold kFG; lia | ].
  destruct (GetColor_defined b kPR stored) as [pr Hpr]; [ unfold kPR; lia | ].
  destruct (GetColor_defined b kFR stored) as [fr Hfr]; [ unfold kFR; lia | ].
  destruct (GetColor_defined b kHL stored) as [hl Hhl]; [ unfold kHL; lia | ].
  destruct (GetColor_defined b kSH stored) as [sh Hsh]; [ unfold kSH; lia | ].
  exists bg, fg, pr, fr, hl, sh.
  repeat (split; [ assumption | ]).
  cbv zeta.
  assert (run :
    DrawVectorButton b bounds pressed mouseOver g
    = Returned (GetAdjustedHandleBounds b bounds)
        (MakeIGraphics (mouseDownPoint g)
           (drawn g
            ++ ([ FillRect bg bounds ]
                ++ (if negb pressed && mDrawShadows b && negb (mEmboss b)
                    then [ FillRoundRect sh
                             (GetTranslated (GetAdjustedHandleBounds b bounds)
                                (mShadowOffset b) (mShadowOffset b))
                             (fmul (mRoundness b)
                                (fdiv (W (GetAdjustedHandleBounds b bounds)) 2%float)) ]
                    else [])
                ++ [ FillRoundRect (if pressed then pr else fg)
                       (GetAdjustedHandleBounds b bounds)
                       (fmul (mRoundness b)
                          (fdiv (W (GetAdjustedHandleBounds b bounds)) 2%float)) ]
                ++ (if pressed && mDrawShadows b && mEmboss b
                    then [ PathRect (GetHSliced (GetAdjustedHandleBounds b bounds)
                                       (mShadowOffset b));
                           PathRect (GetVSliced (GetAdjustedHandleBounds b bounds)
                                       (mShadowOffset b));
                           PathFill sh ]
                    else [])
                ++ (if mouseOver
                    then [ FillRoundRect hl (GetAdjustedHandleBounds b bounds)
                             (fmul (mRoundness b)
                                (fdiv (W (GetAdjustedHandleBounds b bounds)) 2%float)) ]
                    else [])
                ++ match mAnimationFunc c with
                   | Some _ => [ FillCircle hl (fst (mouseDownPoint g))
                                   (snd (mouseDownPoint g)) (mSplashRadius b) ]
                   | None => []
                   end)
            ++ (if mDrawFrame b
                then [ DrawRoundRect fr (GetAdjustedHandleBounds b bounds)
                         (fmul (mRoundness b)
                            (fdiv (W (GetAdjustedHandleBounds b bounds)) 2%float))
                         None (mFrameThickness b) ]
                else [])))).
  { unfold DrawVectorButton, DrawSplash.
    rewrite Hbg, Hfg, Hpr, Hfr, Hhl, Hsh, attached.
    generalize (GetAdjustedHandleBounds b bounds) as hb. intros hb.
    generalize (fmul (mRoundness b) (fdiv (W hb) 2%float)) as cr. intros cr.
    destruct (mAnimationFunc c) eqn:anim;
      destruct pressed, mouseOver, (mDrawShadows b), (mEmboss b), (mDrawFrame b);
      cbn; rewrite anim; cbn; rewrite <- ?app_assoc; reflexivity. }
  split; [ exact run | ].
  intros framed. eexists. split; [ exact run | ].
  cbn [drawn]. rewrite framed. rewrite app_assoc. reflexivity.
Qed.

(** C8 at work: an unpressed, hovered, framed button with drop shadow and no
    animation draws background, shadow, foreground fill, highlight and frame. *)
Lemma DrawVectorButton_compositing_order_witness :
  exists (hb : IRECT) (cr : float),
    @DrawVectorButton sample_geometry styled_base unit_square false true blank_canvas
    = Returned hb
        (MakeIGraphics (10%float, 20%float)
           [ FillRect white unit_square;
             FillRoundRect (gray 60) (@GetTranslated sample_geometry hb 3%float 3%float) cr;
             FillRoundRect (gray 200) hb cr;
             FillRoundRect (gray 230) hb cr;
             DrawRoundRect black hb cr None 2%float ]).
Proof.
  destruct (DrawVectorButton_compositing_order sample_geometry styled_base
              plain_control unit_square false true blank_canvas)
    as (bg & fg & pr & fr & hl & sh & Hbg & Hfg & Hpr & Hfr & Hhl & Hsh & run & _).
  - reflexivity.
  - discriminate.
  - vm_compute in Hbg, Hfg, Hpr, Hfr, Hhl, Hsh.
    injection Hbg as <-. injection Hfg as <-. injection Hpr as <-.
    injection Hfr as <-. injection Hhl as <-. injection Hsh as <-.
    eexists. eexists. cbv zeta in run. rewrite run. reflexivity.
Defined.

(** * Further properties of the header's code *)

(** ** One value or all values *)

Lemma for_upto_run_each :
  forall (trips first : nat) (func : int -> M unit) (w : World),
    for_upto trips (Z.of_nat first) func w
    = run_each (map Z.of_nat (seq first trips)) func w.
Proof.
  induction trips as [ | trips IH]; intros first func w.
  - reflexivity.
  - cbn [for_upto seq map run_each]. unfold bind.
    destruct (func (Z.of_nat first) w) as [ [] w1 | f ]; [ | reflexivity ].
    replace (Z.of_nat first + 1) with (Z.of_nat (S first)) by lia.
    apply IH.
Qed.

(** X1.  [ForValIdx] addresses all values for every index that is not above
    [kNoValIdx] (every negative index, not only the sentinel): it runs the
    function on 0, 1, ..., N-1 in this order, N being the number of values
    when the loop is entered, whatever the function does to the control.  For
    an index above the sentinel it makes the one call, with no bounds check
    of its own. *)
Theorem ForValIdx_one_or_all :
  forall (valIdx : int) (func : int -> M unit) (w : World),
    ForValIdx valIdx func w
    = if valIdx <=? kNoValIdx
      then run_each (indices (length (mVals (ctl w)))) func w
      else func valIdx w.
Proof.
  intros valIdx func w. unfold ForValIdx, kNoValIdx.
  rewrite Z.gtb_ltb.
  destruct (Z.ltb_spec (-1) valIdx) as [above | below];
    destruct (Z.leb_spec valIdx (-1)) as [below' | above']; try lia.
  - reflexivity.
  - unfold bind, NVals, gets. rewrite Nat2Z.id.
    apply (for_upto_run_each (length (mVals (ctl w))) 0 func w).
Qed.

(** ** Resizing the values *)

Lemma vector_resize_length :
  forall (A : Type) (n : nat) (fresh : A) (l : list A),
    length (vector_resize n fresh l) = n.
Proof.
  intros A n fresh l. unfold vector_resize.
  rewrite length_app, length_firstn, repeat_length. lia.
Qed.

Lemma vector_resize_kept :
  forall (A : Type) (n : nat) (fresh : A) (l : list A) (i : nat),
    (i < n)%nat -> (i < length l)%nat ->
    nth_error (vector_resize n fresh l) i = nth_error l i.
Proof.
  intros A n fresh l i in_new in_old. unfold vector_resize.
  rewrite nth_error_app1 by (rewrite length_firstn; lia).
  rewrite nth_error_firstn.
  destruct (Nat.ltb_spec i n); [ reflexivity | lia ].
Qed.

Lemma vector_resize_fresh :
  forall (A : Type) (n : nat) (fresh : A) (l : list A) (i : nat),
    (length l <= i < n)%nat ->
    nth_error (vector_resize n fresh l) i = Some fresh.
Proof.
  intros A n fresh l i [past_old in_new]. unfold vector_resize.
  rewrite nth_error_app2 by (rewrite length_firstn; lia).
  rewrite length_firstn.
  apply nth_error_repeat. lia.
Qed.

(** X2.  [SetNVals(nVals)] stops on its assertion exactly when [nVals <= 0].
    Otherwise the control has [nVals] values afterwards: the values at the
    indices that exist before and after are kept, every added value is the
    default-constructed one, and the dirty flag and the trace are untouched. *)
Theorem SetNVals_resizes :
  forall (fresh : ParamTuple) (nVals : int) (w : World),
    (nVals <= 0 -> SetNVals fresh nVals w = Failed AssertionFailed)
    /\ (0 < nVals ->
        exists w',
          SetNVals fresh nVals w = Returned tt w'
          /\ NVals w' = Returned nVals w'
          /\ (forall i : nat,
                (i < Z.to_nat nVals)%nat -> (i < length (mVals (ctl w)))%nat ->
                nth_error (mVals (ctl w')) i = nth_error (mVals (ctl w)) i)
          /\ (forall i : nat,
                (length (mVals (ctl w)) <= i < Z.to_nat nVals)%nat ->
                nth_error (mVals (ctl w')) i = Some fresh)
          /\ mDirty (ctl w') = mDirty (ctl w)
          /\ trace w' = trace w).
Proof.
  intros fresh nVals [c tr]. split.
  - intros nonpositive. unfold SetNVals, bind, assert.
    replace (nVals >? 0) with false; [ reflexivity | ].
    symmetry. rewrite Z.gtb_ltb. apply Z.ltb_ge. exact nonpositive.
  - intros positive. eexists. split.
    + unfold SetNVals, bind, assert.
      replace (nVals >? 0) with true; [ reflexivity | ].
      symmetry. rewrite Z.gtb_ltb. apply Z.ltb_lt. exact positive.
    + cbn [ctl trace mVals with_mVals mDirty]. split.
      * unfold NVals, gets. cbn [ctl mVals with_mVals].
        rewrite vector_resize_length, Z2Nat.id by lia. reflexivity.
      * split; [ intros i; apply vector_resize_kept | ].
        split; [ intros i; apply vector_resize_fresh | ].
        split; reflexivity.
Qed.

Lemma SetNVals_resizes_witness :
  SetNVals (MakeParamTuple kNoParameter 0%float) 0 (MakeWorld three_knobs [])
    = Failed AssertionFailed
  /\ exists w',
       SetNVals (MakeParamTuple kNoParameter 0%float) 5 (MakeWorld three_knobs [])
         = Returned tt w'
       /\ NVals w' = Returned 5 w'.
Proof.
  split.
  - apply (SetNVals_resizes (MakeParamTuple kNoParameter 0%float) 0
             (MakeWorld three_knobs [])).
    lia.
  - destruct (SetNVals_resizes (MakeParamTuple kNoParameter 0%float) 5
                (MakeWorld three_knobs [])) as [_ grows].
    destruct (grows ltac:(lia)) as [w' [run [count _]]].
    exists w'. split; assumption.
Defined.

(** X3.  How resizing meets hit routing: after [SetNVals(nVals)] the default
    [GetValIdxForPos] answers 0 at every position when [nVals] is 1 and
    [kNoValIdx] at every position when it is larger. *)
Theorem SetNVals_then_GetValIdxForPos :
  forall (fresh : ParamTuple) (nVals : int) (x y : float) (w : World),
    0 < nVals ->
    exists w',
      SetNVals fresh nVals w = Returned tt w'
      /\ (SetNVals fresh nVals ;; GetValIdxForPos x y) w
         = Returned (if nVals =? 1 then 0 else kNoValIdx) w'.
Proof.
  intros fresh nVals x y [c tr] positive.
  assert (run : SetNVals fresh nVals (MakeWorld c tr)
                = Returned tt
                    (MakeWorld
                       (with_mVals (vector_resize (Z.to_nat nVals) fresh (mVals c)) c)
                       tr)).
  { unfold SetNVals, bind, assert.
    replace (nVals >? 0) with true; [ reflexivity | ].
    symmetry. rewrite Z.gtb_ltb. apply Z.ltb_lt. exact positive. }
  eexists. split; [ exact run | ].
  unfold bind at 1. rewrite run.
  unfold GetValIdxForPos, gets. cbn [ctl mVals with_mVals].
  rewrite vector_resize_length.
  destruct (Z.eqb_spec nVals 1) as [one | more].
  - subst nVals. reflexivity.
  - destruct (Nat.eqb_spec (Z.to_nat nVals) 1) as [one | _]; [ lia | reflexivity ].
Qed.

Lemma SetNVals_then_GetValIdxForPos_witness :
  exists w',
    SetNVals (MakeParamTuple kNoParameter 0%float) 2 (MakeWorld plain_control [])
      = Returned tt w'
    /\ (SetNVals (MakeParamTuple kNoParameter 0%float) 2
          ;; GetValIdxForPos 10%float 10%float) (MakeWorld plain_control [])
       = Returned (if 2 =? 1 then 0 else kNoValIdx) w'.
Proof.
  apply (SetNVals_then_GetValIdxForPos (MakeParamTuple kNoParameter 0%float) 2
           10%float 10%float (MakeWorld plain_control [])).
  lia.
Defined.

(** ** The two rectangles *)

(** X4.  [SetTargetAndDrawRECTs(bounds)] is [SetTargetRECT(bounds)] followed by
    [SetRECT(bounds)], for every override of the hooks: the same members, the
    same single entry into [OnResize]. *)
Theorem SetTargetAndDrawRECTs_composes :
  forall (V : IControlOverrides) (bounds : IRECT) (w : World),
    SetTargetAndDrawRECTs bounds w = (SetTargetRECT bounds ;; SetRECT bounds) w.
Proof.
  intros V bounds [c tr]. reflexivity.
Qed.

(** X5.  Hit testing follows the target rectangle only.  After
    [SetTargetRECT(bounds)] the default hit test is containment in [bounds],
    the mouse-over flag is cleared and no hook was entered.  After
    [SetRECT(bounds)] on a control that does not override [OnResize], the hit
    test answers as before the call, and [OnResize] was entered once. *)
Theorem hit_test_follows_target_rect :
  forall (G : IRECT_methods) (bounds : IRECT) (x y : float) (w : World),
    (SetTargetRECT bounds ;; IsHit x y) w
      = Returned (Contains bounds x y)
          (MakeWorld (with_mMouseIsOver false (with_mTargetRECT bounds (ctl w)))
             (trace w))
    /\ (exists w',
          (@SetRECT IControl_base bounds ;; IsHit x y) w
            = Returned (Contains (mTargetRECT (ctl w)) x y) w'
          /\ mRECT (ctl w') = bounds
          /\ mTargetRECT (ctl w') = mTargetRECT (ctl w)
          /\ mMouseIsOver (ctl w') = false
          /\ trace w'
             = trace w ++ [ HookCalled HOnResize (mDelegate (ctl w)) (mGraphics (ctl w)) ]).
Proof.
  intros G bounds x y [c tr]. split.
  - reflexivity.
  - eexists. split; [ reflexivity | ].
    cbn. repeat split.
Qed.

(** ** The values never run out *)

Lemma vector_resize_nonempty :
  forall (A : Type) (n : nat) (fresh : A) (l : list A),
    (0 < n)%nat -> vector_resize n fresh l <> [].
Proof.
  intros A n fresh l positive empty.
  apply (f_equal (@length A)) in empty.
  rewrite vector_resize_length in empty. simpl in empty. lia.
Qed.

Lemma call_keeps_values :
  forall (V : IControlOverrides) (op : HeaderCall) (w w' : World),
    (forall c, mVals c <> [] -> mVals (OnInit_body c) <> []) ->
    (forall c, mVals c <> [] -> mVals (OnResize_body c) <> []) ->
    (forall c, mVals c <> [] -> mVals (OnRescale_body c) <> []) ->
    mVals (ctl w) <> [] ->
    call op w = Returned tt w' ->
    mVals (ctl w') <> [].
Proof.
  intros V op [c tr] w' init resize rescale some run.
  cbn [ctl] in some.
  destruct op;
    unfold call, SetActionFunction, SetRECT, SetTargetRECT, SetTargetAndDrawRECTs,
      SetClean, SetTag, SetWantsMidi, SetDelegate, StartAnimation, SetAnimation,
      SetAnimation_for, StartAnimation, OnInit, OnResize, OnRescale, enter, bind,
      modify, emit in run;
    cbn in run;
    try (injection run as <-; cbn; auto; fail).
  - unfold SetNVals, bind, assert in run.
    rewrite Z.gtb_ltb in run.
    destruct (Z.ltb_spec 0 nVals) as [positive | nonpositive].
    + cbn in run. injection run as <-. cbn [ctl mVals with_mVals].
      apply vector_resize_nonempty. lia.
    + discriminate run.
Qed.

(** X6.  A control keeps at least one value.  Whatever sequence of the
    header's mutating methods runs on a control that owns a value, every run
    that returns leaves a control that owns a value, provided the overridden
    hooks keep one too; [SetNVals] is the one method that changes the number
    of values, and it refuses a number that is not positive. *)
Theorem values_never_empty :
  forall (V : IControlOverrides) (ops : list HeaderCall) (w w' : World),
    (forall c, mVals c <> [] -> mVals (OnInit_body c) <> []) ->
    (forall c, mVals c <> [] -> mVals (OnResize_body c) <> []) ->
    (forall c, mVals c <> [] -> mVals (OnRescale_body c) <> []) ->
    mVals (ctl w) <> [] ->
    calls ops w = Returned tt w' ->
    mVals (ctl w') <> [] /\ NVals w' <> Returned 0 w'.
Proof.
  intros V ops w w' init resize rescale.
  assert (kept : forall (l : list HeaderCall) (w0 w1 : World),
             mVals (ctl w0) <> [] -> calls l w0 = Returned tt w1 ->
             mVals (ctl w1) <> []).
  { induction l as [ | op l IH]; intros w0 w1 some run.
    - injection run as <-. exact some.
    - cbn [calls] in run. unfold bind in run.
      destruct (call op w0) as [ [] wm | f ] eqn:step; [ | discriminate run ].
      apply (IH wm w1); [ | exact run ].
      apply (call_keeps_values V op w0 wm init resize rescale some step). }
  intros some run.
  pose proof (kept ops w w' some run) as some'.
  split; [ exact some' | ].
  unfold NVals, gets. intros zero. injection zero as zero.
  destruct (mVals (ctl w')); [ congruence | discriminate zero ].
Qed.

Lemma values_never_empty_witness :
  @calls IControl_base sample_calls (MakeWorld plain_control [])
    = Returned tt (MakeWorld after_sample_calls after_sample_trace)
  /\ mVals after_sample_calls <> []
  /\ NVals (MakeWorld after_sample_calls after_sample_trace)
     <> Returned 0 (MakeWorld after_sample_calls after_sample_trace).
Proof.
  split; [ vm_compute; reflexivity | ].
  apply (values_never_empty IControl_base sample_calls
           (MakeWorld plain_control [])
           (MakeWorld after_sample_calls after_sample_trace)).
  - intros c some. exact some.
  - intros c some. exact some.
  - intros c some. exact some.
  - discriminate.
  - vm_compute. reflexivity.
Defined.

(** ** Building the palette *)

Lemma GetColor_at :
  forall (b : IVectorBase) (i : nat) (c : IColor),
    nth_error (mColors b) i = Some c -> GetColor b (Z.of_nat i) = Some c.
Proof.
  intros b i c at_i.
  assert (inside : (i < length (mColors b))%nat).
  { apply nth_error_Some. rewrite at_i. discriminate. }
  unfold GetColor, buf_read.
  destruct (Z.ltb_spec (Z.of_nat i) (Z.of_nat (length (mColors b)))); [ | lia ].
  destruct (Z.leb_spec 0 (Z.of_nat i)); [ | lia ].
  cbn [andb]. rewrite Nat2Z.id. exact at_i.
Qed.

(** X7.  A base built from a color spec stores the nine colors in role order:
    [GetColor] returns, for each of the nine roles, the color that the spec
    gives it, and the background color for every index from 9 on. *)
Theorem IVectorBase_of_spec_roles :
  forall (spec : IVColorSpec) (k : int),
    mColors (IVectorBase_of_spec spec)
      = [ mBGColor spec; mFGColor spec; mPRColor spec; mFRColor spec;
          mHLColor spec; mSHColor spec; mX1Color spec; mX2Color spec;
          mX3Color spec ]
    /\ GetColor (IVectorBase_of_spec spec) kBG = Some (mBGColor spec)
    /\ GetColor (IVectorBase_of_spec spec) kFG = Some (mFGColor spec)
    /\ GetColor (IVectorBase_of_spec spec) kPR = Some (mPRColor spec)
    /\ GetColor (IVectorBase_of_spec spec) kFR = Some (mFRColor spec)
    /\ GetColor (IVectorBase_of_spec spec) kHL = Some (mHLColor spec)
    /\ GetColor (IVectorBase_of_spec spec) kSH = Some (mSHColor spec)
    /\ GetColor (IVectorBase_of_spec spec) kX1 = Some (mX1Color spec)
    /\ GetColor (IVectorBase_of_spec spec) kX2 = Some (mX2Color spec)
    /\ GetColor (IVectorBase_of_spec spec) kX3 = Some (mX3Color spec)
    /\ (9 <= k -> GetColor (IVectorBase_of_spec spec) k = Some (mBGColor spec)).
Proof.
  intros spec k.
  repeat (split; [ reflexivity | ]).
  intros large. unfold GetColor.
  change (Z.of_nat (length (mColors (IVectorBase_of_spec spec)))) with 9.
  destruct (Z.ltb_spec k 9); [ lia | reflexivity ].
Qed.

(** The colors that nine pointers designate, nulls left out. *)
Lemma IVectorBase_new_colors :
  forall p0 p1 p2 p3 p4 p5 p6 p7 p8 : option IColor,
    mColors (IVectorBase_new p0 p1 p2 p3 p4 p5 p6 p7 p8)
    = flat_map (fun p : option IColor => match p with Some c => [c] | None => [] end)
        [ p0; p1; p2; p3; p4; p5; p6; p7; p8 ].
Proof.
  intros p0 p1 p2 p3 p4 p5 p6 p7 p8.
  destruct p0, p1, p2, p3, p4, p5, p6, p7, p8; reflexivity.
Qed.

(** X8.  The constructor from nine pointers stores the colors of the non-null
    pointers, in order, and nothing for a null one: a null pointer moves every
    later color one role down.  With a null background pointer, [GetColor(kBG)]
    returns the foreground color that was passed. *)
Theorem IVectorBase_new_skips_null :
  forall p0 p1 p2 p3 p4 p5 p6 p7 p8 : option IColor,
    mColors (IVectorBase_new p0 p1 p2 p3 p4 p5 p6 p7 p8)
      = flat_map (fun p : option IColor => match p with Some c => [c] | None => [] end)
          [ p0; p1; p2; p3; p4; p5; p6; p7; p8 ]
    /\ (length (mColors (IVectorBase_new p0 p1 p2 p3 p4 p5 p6 p7 p8)) <= 9)%nat
    /\ (forall fg : IColor,
          GetColor (IVectorBase_new None (Some fg) p2 p3 p4 p5 p6 p7 p8) kBG = Some fg).
Proof.
  intros p0 p1 p2 p3 p4 p5 p6 p7 p8.
  split; [ apply IVectorBase_new_colors | ].
  split.
  - rewrite IVectorBase_new_colors.
    destruct p0, p1, p2, p3, p4, p5, p6, p7, p8; simpl; lia.
  - intros fg.
    change kBG with (Z.of_nat 0). apply GetColor_at.
    rewrite IVectorBase_new_colors. reflexivity.
Qed.

(** ** Changing the palette *)

Lemma list_set_length :
  forall (A : Type) (l : list A) (n : nat) (a : A),
    length (list_set l n a) = length l.
Proof.
  induction l as [ | h t IH]; intros [ | n] a; simpl; try reflexivity.
  rewrite IH. reflexivity.
Qed.

Lemma list_set_other :
  forall (A : Type) (l : list A) (n m : nat) (a : A),
    n <> m -> nth_error (list_set l n a) m = nth_error l m.
Proof.
  induction l as [ | h t IH]; intros [ | n] [ | m] a diff; simpl;
    try reflexivity; try congruence.
  apply IH. congruence.
Qed.

Lemma buf_write_inside :
  forall (A : Type) (buf : list A) (i : int) (a : A),
    0 <= i < Z.of_nat (length buf) ->
    buf_write buf i a = Some (list_set buf (Z.to_nat i) a).
Proof.
  intros A buf i a [lo hi]. unfold buf_write.
  destruct (Z.leb_spec 0 i); [ | lia ].
  destruct (Z.ltb_spec i (Z.of_nat (length buf))); [ reflexivity | lia ].
Qed.

Lemma buf_read_list_set_other :
  forall (A : Type) (buf : list A) (i j : int) (a : A),
    0 <= i -> j <> i ->
    buf_read (list_set buf (Z.to_nat i) a) j = buf_read buf j.
Proof.
  intros A buf i j a lo diff. unfold buf_read.
  rewrite list_set_length.
  destruct ((0 <=? j) && (j <? Z.of_nat (length buf))) eqn:inside; [ | reflexivity ].
  apply andb_true_iff in inside. destruct inside as [jlo _].
  apply Z.leb_le in jlo.
  apply list_set_other. lia.
Qed.

(** The call through [mControl], on an attached base. *)
Lemma mControl_SetDirty_attached :
  forall (SetDirty_v : bool -> int -> M unit) (b : IVectorBase) (tr : list Event)
         (c : IControl) (w' : World),
    mControl b = Some c ->
    SetDirty_v false kNoValIdx (MakeWorld c tr) = Returned tt w' ->
    mControl_SetDirty SetDirty_v false (MakeVWorld b tr)
    = Returned tt (MakeVWorld (with_mControl (Some (ctl w')) b) (trace w')).
Proof.
  intros SetDirty_v b tr c w' attached marked.
  unfold mControl_SetDirty. cbn [vbase vtrace].
  rewrite attached, marked. reflexivity.
Qed.

(** X9.  [SetColor] and [GetColor] round trip inside the palette: on an
    attached base whose control's [SetDirty(false)] returns, [SetColor] at an
    index from 0 up to the number of stored colors returns, [GetColor] at that
    index then returns the new color, every other stored color and the number
    of colors are as before, and the control has been through [SetDirty]. *)
Theorem SetColor_then_GetColor :
  forall (SetDirty_v : bool -> int -> M unit) (colorIdx : int) (color : IColor)
         (b : IVectorBase) (tr : list Event) (c : IControl) (w' : World),
    mControl b = Some c ->
    SetDirty_v false kNoValIdx (MakeWorld c tr) = Returned tt w' ->
    0 <= colorIdx < Z.of_nat (length (mColors b)) ->
    exists vw',
      SetColor SetDirty_v colorIdx color (MakeVWorld b tr) = Returned tt vw'
      /\ GetColor (vbase vw') colorIdx = Some color
      /\ (forall j, j <> colorIdx -> j < Z.of_nat (length (mColors b)) ->
                    GetColor (vbase vw') j = GetColor b j)
      /\ length (mColors (vbase vw')) = length (mColors b)
      /\ mControl (vbase vw') = Some (ctl w')
      /\ vtrace vw' = trace w'.
Proof.
  intros SetDirty_v colorIdx color b tr c w' attached marked inside.
  set (b1 := with_mColors (list_set (mColors b) (Z.to_nat colorIdx) color) b).
  assert (run : SetColor SetDirty_v colorIdx color (MakeVWorld b tr)
                = Returned tt (MakeVWorld (with_mControl (Some (ctl w')) b1) (trace w'))).
  { unfold SetColor, bind. cbn [vbase].
    destruct (Z.ltb_spec colorIdx (Z.of_nat (length (mColors b)))); [ | lia ].
    unfold store_color. cbn [vbase vtrace].
    rewrite (buf_write_inside _ (mColors b) colorIdx color inside).
    apply (mControl_SetDirty_attached SetDirty_v b1 tr c w'); assumption. }
  eexists. split; [ exact run | ].
  cbn [vbase vtrace]. split.
  - replace colorIdx with (Z.of_nat (Z.to_nat colorIdx)) at 1 by lia.
    apply GetColor_at. cbn. apply list_set_same. lia.
  - split.
    + intros j diff small. unfold GetColor. cbn. rewrite list_set_length.
      destruct (Z.ltb_spec j (Z.of_nat (length (mColors b)))); [ | lia ].
      apply buf_read_list_set_other; lia.
    + split; [ cbn; apply list_set_length | split; reflexivity ].
Qed.

Lemma SetColor_then_GetColor_witness :
  exists vw',
    SetColor SetDirty kPR red (MakeVWorld styled_base []) = Returned tt vw'
    /\ GetColor (vbase vw') kPR = Some red
    /\ GetColor (vbase vw') kFG = GetColor styled_base kFG
    /\ length (mColors (vbase vw')) = 9%nat.
Proof.
  destruct (SetColor_then_GetColor SetDirty kPR red styled_base [] plain_control
              (MakeWorld (with_mDirty true plain_control) []))
    as [vw' [run [back [others [count _]]]]].
  - reflexivity.
  - reflexivity.
  - simpl. unfold kPR. lia.
  - exists vw'. split; [ exact run | ].
    split; [ exact back | ].
    split; [ apply others; [ discriminate | simpl; unfold kFG; lia ] | exact count ].
Defined.

(** X10.  [SetColor] outside the palette.  At an index not smaller than the
    number of stored colors the color is dropped: the call returns with the
    palette as it was, so [GetColor] at that index still answers with the
    color at index 0.  A negative index passes the guard and the write falls
    outside the buffer. *)
Theorem SetColor_outside_palette :
  forall (SetDirty_v : bool -> int -> M unit) (colorIdx : int) (color : IColor)
         (b : IVectorBase) (tr : list Event) (c : IControl) (w' : World),
    mControl b = Some c ->
    SetDirty_v false kNoValIdx (MakeWorld c tr) = Returned tt w' ->
    (Z.of_nat (length (mColors b)) <= colorIdx ->
     exists vw',
       SetColor SetDirty_v colorIdx color (MakeVWorld b tr) = Returned tt vw'
       /\ mColors (vbase vw') = mColors b
       /\ GetColor (vbase vw') colorIdx = buf_read (mColors b) 0)
    /\ (colorIdx < 0 ->
        SetColor SetDirty_v colorIdx color (MakeVWorld b tr) = Failed InvalidAccess).
Proof.
  intros SetDirty_v colorIdx color b tr c w' attached marked. split.
  - intros beyond. eexists. split.
    + unfold SetColor, bind. cbn [vbase].
      destruct (Z.ltb_spec colorIdx (Z.of_nat (length (mColors b)))); [ lia | ].
      apply (mControl_SetDirty_attached SetDirty_v b tr c w'); assumption.
    + cbn [vbase]. split; [ reflexivity | ].
      unfold GetColor. cbn [mColors with_mControl].
      destruct (Z.ltb_spec colorIdx (Z.of_nat (length (mColors b)))); [ lia | reflexivity ].
  - intros negative. unfold SetColor, bind. cbn [vbase].
    destruct (Z.ltb_spec colorIdx (Z.of_nat (length (mColors b)))); [ | lia ].
    unfold store_color, buf_write. cbn [vbase].
    destruct (Z.leb_spec 0 colorIdx); [ lia | reflexivity ].
Qed.

Lemma SetColor_outside_palette_witness :
  (exists vw',
     SetColor SetDirty 5 red (MakeVWorld short_base []) = Returned tt vw'
     /\ mColors (vbase vw') = mColors short_base
     /\ GetColor (vbase vw') 5 = Some white)
  /\ SetColor SetDirty (-1) red (MakeVWorld short_base []) = Failed InvalidAccess.
Proof.
  destruct (SetColor_outside_palette SetDirty 5 red short_base [] plain_control
              (MakeWorld (with_mDirty true plain_control) []) eq_refl eq_refl)
    as [dropped _].
  destruct (SetColor_outside_palette SetDirty (-1) red short_base [] plain_control
              (MakeWorld (with_mDirty true plain_control) []) eq_refl eq_refl)
    as [_ outside].
  split.
  - destruct dropped as [vw' [run [same back]]]; [ simpl; lia | ].
    exists vw'. split; [ exact run | ]. split; [ exact same | exact back ].
  - apply outside. lia.
Defined.

(** X11.  [SetColors] writes all nine roles without looking at the size of
    the palette: on a base that stores fewer than nine colors (one built with
    a null pointer) a write falls outside the buffer, whatever the colors and
    whatever control is attached. *)
Theorem SetColors_short_palette :
  forall (SetDirty_v : bool -> int -> M unit) (c0 c1 c2 c3 c4 c5 c6 c7 c8 : IColor)
         (b : IVectorBase) (tr : list Event),
    (length (mColors b) < 9)%nat ->
    SetColors SetDirty_v c0 c1 c2 c3 c4 c5 c6 c7 c8 (MakeVWorld b tr)
    = Failed InvalidAccess.
Proof.
  intros SetDirty_v c0 c1 c2 c3 c4 c5 c6 c7 c8 b tr short.
  destruct b as [pc colors rn so ft df ds em sr msr]. cbn [mColors] in short.
  do 9 (destruct colors as [ | ? colors]; [ reflexivity | ]).
  simpl in short. lia.
Qed.

Lemma SetColors_short_palette_witness :
  SetColors SetDirty white black red white black red white black red
    (MakeVWorld short_base [])
  = Failed InvalidAccess.
Proof.
  apply (SetColors_short_palette SetDirty white black red white black red
           white black red short_base []).
  simpl. lia.
Defined.

Lemma store_color_inside :
  forall (i : nat) (color : IColor) (b : IVectorBase) (tr : list Event),
    (i < length (mColors b))%nat ->
    store_color (Z.of_nat i) color (MakeVWorld b tr)
    = Returned tt (MakeVWorld (with_mColors (list_set (mColors b) i color) b) tr).
Proof.
  intros i color b tr inside. unfold store_color. cbn [vbase vtrace].
  rewrite buf_write_inside by lia. rewrite Nat2Z.id. reflexivity.
Qed.

(** X12.  [Style] on a base that stores at least nine colors, attached to a
    control whose [SetDirty(false)] returns: the call returns, the three flags
    and the three measures are stored as given (the roundness is not clamped),
    the first nine colors are those of the spec in role order, and the colors
    from index 9 on are kept. *)
Theorem Style_restyles :
  forall (SetDirty_v : bool -> int -> M unit)
         (drawFrame drawShadows emboss : bool)
         (roundness frameThickness shadowOffset : float) (spec : IVColorSpec)
         (b : IVectorBase) (tr : list Event) (c : IControl) (w' : World)
         (o0 o1 o2 o3 o4 o5 o6 o7 o8 : IColor) (more : list IColor),
    mControl b = Some c ->
    SetDirty_v false kNoValIdx (MakeWorld c tr) = Returned tt w' ->
    mColors b = [ o0; o1; o2; o3; o4; o5; o6; o7; o8 ] ++ more ->
    exists vw',
      Style SetDirty_v drawFrame drawShadows emboss roundness frameThickness
        shadowOffset spec (MakeVWorld b tr) = Returned tt vw'
      /\ mColors (vbase vw')
         = [ mBGColor spec; mFGColor spec; mPRColor spec; mFRColor spec;
             mHLColor spec; mSHColor spec; mX1Color spec; mX2Color spec;
             mX3Color spec ] ++ more
      /\ GetColor (vbase vw') kBG = Some (mBGColor spec)
      /\ GetColor (vbase vw') kFR = Some (mFRColor spec)
      /\ GetColor (vbase vw') kX3 = Some (mX3Color spec)
      /\ mDrawFrame (vbase vw') = drawFrame
      /\ mDrawShadows (vbase vw') = drawShadows
      /\ mEmboss (vbase vw') = emboss
      /\ mRoundness (vbase vw') = roundness
      /\ mFrameThickness (vbase vw') = frameThickness
      /\ mShadowOffset (vbase vw') = shadowOffset
      /\ mSplashRadius (vbase vw') = mSplashRadius b
      /\ mControl (vbase vw') = Some (ctl w').
Proof.
  intros SetDirty_v drawFrame drawShadows emboss roundness frameThickness
    shadowOffset spec b tr c w' o0 o1 o2 o3 o4 o5 o6 o7 o8 more
    attached marked palette.
  destruct b as [pc colors rn so ft df ds em sr msr].
  cbn [mControl mColors] in attached, palette. subst pc colors.
  assert (run :
    Style SetDirty_v drawFrame drawShadows emboss roundness frameThickness
      shadowOffset spec
      (MakeVWorld
         (MakeIVectorBase (Some c) ([ o0; o1; o2; o3; o4; o5; o6; o7; o8 ] ++ more)
            rn so ft df ds em sr msr) tr)
    = Returned tt
        (MakeVWorld
           (MakeIVectorBase (Some (ctl w'))
              ([ mBGColor spec; mFGColor spec; mPRColor spec; mFRColor spec;
                 mHLColor spec; mSHColor spec; mX1Color spec; mX2Color spec;
                 mX3Color spec ] ++ more)
              roundness shadowOffset frameThickness drawFrame drawShadows emboss
              sr msr)
           (trace w'))).
  { unfold Style, SetColors_spec, SetColors, bind at 1. cbn [vbase vtrace].
    unfold with_style. cbn [mControl mColors mSplashRadius mMaxSplashRadius app].
    change kBG with (Z.of_nat 0). change kFG with (Z.of_nat 1).
    change kPR with (Z.of_nat 2). change kFR with (Z.of_nat 3).
    change kHL with (Z.of_nat 4). change kSH with (Z.of_nat 5).
    change kX1 with (Z.of_nat 6). change kX2 with (Z.of_nat 7).
    change kX3 with (Z.of_nat 8).
    do 9 (unfold bind at 1;
          rewrite store_color_inside by (cbn [mColors length app]; lia);
          unfold with_mColors;
          cbn [mControl mColors list_set app mRoundness mShadowOffset
                 mFrameThickness mDrawFrame mDrawShadows mEmboss mSplashRadius
                 mMaxSplashRadius]).
    erewrite mControl_SetDirty_attached; [ reflexivity | reflexivity | exact marked ]. }
  eexists. split; [ exact run | ].
  cbn [vbase]. split; [ reflexivity | ].
  split; [ change kBG with (Z.of_nat 0); apply GetColor_at; reflexivity | ].
  split; [ change kFR with (Z.of_nat 3); apply GetColor_at; reflexivity | ].
  split; [ change kX3 with (Z.of_nat 8); apply GetColor_at; reflexivity | ].
  cbn. repeat split.
Qed.

Lemma Style_restyles_witness :
  exists vw',
    Style SetDirty false true true 5%float 1%float 4%float
      (MakeIVColorSpec red red red black black black white white white)
      (MakeVWorld styled_base []) = Returned tt vw'
    /\ mColors (vbase vw')
       = [ red; red; red; black; black; black; white; white; white ]
    /\ mRoundness (vbase vw') = 5%float
    /\ mEmboss (vbase vw') = true.
Proof.
  destruct (Style_restyles SetDirty false true true 5%float 1%float 4%float
              (MakeIVColorSpec red red red black black black white white white)
              styled_base [] plain_control
              (MakeWorld (with_mDirty true plain_control) [])
              white (gray 200) (gray 150) black (gray 230) (gray 60)
              (gray 10) (gray 20) (gray 30) [] eq_refl eq_refl eq_refl)
    as [vw' [run [palette [_ [_ [_ [_ [_ [em [rn _]]]]]]]]]].
  exists vw'. split; [ exact run | ].
  split; [ exact palette | ]. split; [ exact rn | exact em ].
Defined.

(** ** Drawing before attaching *)

(** X13.  [DrawVectorButton] on a base that was never attached to a control
    reads through the null [mControl]: the call is an invalid access for every
    state of the button, as it is on a base that stores no color. *)
Theorem DrawVectorButton_needs_control_and_color :
  forall (G : IRECT_methods) (b : IVectorBase) (bounds : IRECT)
         (pressed mouseOver : bool) (g : IGraphics),
    mControl b = None \/ mColors b = [] ->
    DrawVectorButton b bounds pressed mouseOver g = Failed InvalidAccess.
Proof.
  intros G b bounds pressed mouseOver g [detached | colorless].
  - unfold DrawVectorButton, DrawSplash. rewrite detached.
    generalize (GetAdjustedHandleBounds b bounds) as hb. intros hb.
    generalize (fmul (mRoundness b) (fdiv (W hb) 2%float)) as cr. intros cr.
    destruct (GetColor b kBG), (GetColor b kPR), (GetColor b kSH),
      (GetColor b kFG), (GetColor b kHL), pressed, mouseOver,
      (mDrawShadows b), (mEmboss b); reflexivity.
  - unfold DrawVectorButton, GetColor. rewrite colorless. reflexivity.
Qed.

Lemma DrawVectorButton_needs_control_and_color_witness :
  @DrawVectorButton sample_geometry detached_base unit_square false true blank_canvas
  = Failed InvalidAccess.
Proof.
  apply (DrawVectorButton_needs_control_and_color sample_geometry detached_base
           unit_square false true blank_canvas).
  left. reflexivity.
Defined.

(** ** The lambda control *)

(** X14.  [ILambdaControl::OnEndAnimation] hands to [SetDirty(false)] a
    control that is re-armed or stopped.  A looping control with a duration
    other than 0 (a negative one too) keeps its animation function and starts
    again at the current clock reading with that duration; a control that does
    not loop, or loops with duration 0, has its animation function cleared and
    its clock left alone.  The mouse record, the values and the trace are the
    same in both cases. *)
Theorem ILambdaControl_OnEndAnimation_rearms_or_clears :
  forall (now : TimePoint) (SetDirty_v : bool -> int -> M unit)
         (lw : ILambdaControl.LWorld),
    exists lw1 : ILambdaControl.LWorld,
      ILambdaControl.OnEndAnimation now SetDirty_v lw
        = ILambdaControl.base (SetDirty_v false kNoValIdx) lw1
      /\ ILambdaControl.members lw1 = ILambdaControl.members lw
      /\ mVals (ctl (ILambdaControl.world lw1)) = mVals (ctl (ILambdaControl.world lw))
      /\ trace (ILambdaControl.world lw1) = trace (ILambdaControl.world lw)
      /\ (ILambdaControl.mLoopAnimation (ILambdaControl.members lw) = true ->
          ILambdaControl.mAnimationDuration (ILambdaControl.members lw) <> 0 ->
          mAnimationFunc (ctl (ILambdaControl.world lw1))
            = mAnimationFunc (ctl (ILambdaControl.world lw))
          /\ mAnimationStartTime (ctl (ILambdaControl.world lw1)) = now
          /\ mAnimationDuration (ctl (ILambdaControl.world lw1))
             = ILambdaControl.mAnimationDuration (ILambdaControl.members lw))
      /\ (ILambdaControl.mLoopAnimation (ILambdaControl.members lw) = false
          \/ ILambdaControl.mAnimationDuration (ILambdaControl.members lw) = 0 ->
          mAnimationFunc (ctl (ILambdaControl.world lw1)) = None
          /\ mAnimationStartTime (ctl (ILambdaControl.world lw1))
             = mAnimationStartTime (ctl (ILambdaControl.world lw))
          /\ mAnimationDuration (ctl (ILambdaControl.world lw1))
             = mAnimationDuration (ctl (ILambdaControl.world lw))).
Proof.
  intros now SetDirty_v [[info loop duration] [c tr]].
  unfold ILambdaControl.OnEndAnimation, ILambdaControl.rearm_or_clear, bind.
  cbn [ILambdaControl.members ILambdaControl.world ILambdaControl.mLoopAnimation
         ILambdaControl.mAnimationDuration].
  destruct loop; destruct (Z.eqb_spec duration 0) as [zero | nonzero];
    cbn [andb negb];
    eexists; (split; [ reflexivity | ]); cbn;
    (split; [ reflexivity | ]); (split; [ reflexivity | ]);
    (split; [ reflexivity | ]);
    split; intros; try tauto; try congruence; try intuition congruence;
    repeat split.
Qed.

Lemma ILambdaControl_OnEndAnimation_rearms_or_clears_witness :
  exists lw1 : ILambdaControl.LWorld,
    ILambdaControl.OnEndAnimation 5000 SetDirty looping_lambda
      = ILambdaControl.base (SetDirty false kNoValIdx) lw1
    /\ mAnimationFunc (ctl (ILambdaControl.world lw1)) = Some 2%nat
    /\ mAnimationStartTime (ctl (ILambdaControl.world lw1)) = 5000
    /\ mAnimationDuration (ctl (ILambdaControl.world lw1)) = 100.
Proof.
  destruct (ILambdaControl_OnEndAnimation_rearms_or_clears 5000 SetDirty looping_lambda)
    as [lw1 [run [_ [_ [_ [rearmed _]]]]]].
  exists lw1. split; [ exact run | ].
  apply rearmed; [ reflexivity | discriminate ].
Defined.

(** X15.  Of the four mouse handlers of [ILambdaControl] only [OnMouseDown]
    starts an animation: it records the event, installs the default animation
    function and starts the clock with the control's own duration, whatever
    that is.  [OnMouseUp], [OnMouseDrag] and [OnMouseDblClick] record the event
    and leave the control as it was.  [GetMouseInfo] returns the last event
    recorded. *)
Theorem ILambdaControl_mouse_handlers :
  forall (now : TimePoint) (DefaultAnimationFunc : nat)
         (x y dX dY : float) (mods : ILambdaControl.IMouseMod)
         (lw : ILambdaControl.LWorld),
    (exists lw',
        ILambdaControl.OnMouseDown now DefaultAnimationFunc x y mods lw = Returned tt lw'
        /\ ILambdaControl.GetMouseInfo lw'
           = Returned (ILambdaControl.MakeIMouseInfo x y mods) lw'
        /\ mAnimationFunc (ctl (ILambdaControl.world lw')) = Some DefaultAnimationFunc
        /\ mAnimationStartTime (ctl (ILambdaControl.world lw')) = now
        /\ mAnimationDuration (ctl (ILambdaControl.world lw'))
           = ILambdaControl.mAnimationDuration (ILambdaControl.members lw)
        /\ mDirty (ctl (ILambdaControl.world lw'))
           = mDirty (ctl (ILambdaControl.world lw))
        /\ trace (ILambdaControl.world lw') = trace (ILambdaControl.world lw))
    /\ (forall handler,
          In handler [ ILambdaControl.OnMouseUp x y mods;
                       ILambdaControl.OnMouseDrag x y dX dY mods;
                       ILambdaControl.OnMouseDblClick x y mods ] ->
          exists lw',
            handler lw = Returned tt lw'
            /\ ILambdaControl.GetMouseInfo lw'
               = Returned (ILambdaControl.MakeIMouseInfo x y mods) lw'
            /\ ILambdaControl.world lw' = ILambdaControl.world lw).
Proof.
  intros now DefaultAnimationFunc x y dX dY mods [[info loop duration] [c tr]].
  split.
  - eexists. split; [ reflexivity | ]. cbn. repeat split.
  - intros handler [<- | [<- | [<- | []]]];
      (eexists; split; [ reflexivity | split; reflexivity ]).
Qed.

(** ** The bitmap base *)

(** X16.  [IBitmapBase::GrayOut] overwrites the blend weight and keeps the blend
    method: after graying and un-graying, the weight is 1.0 whatever weight
    [SetBlend] had installed, so a custom weight does not survive a gray-out
    cycle. *)
Theorem GrayOut_resets_blend_weight :
  forall (GRAYED_ALPHA : float) (blend : IBlend) (b : IBitmapBase),
    mBlend (IBitmapBase_GrayOut GRAYED_ALPHA true (SetBlend blend b))
      = MakeIBlend (mMethod blend) GRAYED_ALPHA
    /\ mBlend (IBitmapBase_GrayOut GRAYED_ALPHA false
                 (IBitmapBase_GrayOut GRAYED_ALPHA true (SetBlend blend b)))
       = MakeIBlend (mMethod blend) 1%float
    /\ mBitmap (IBitmapBase_GrayOut GRAYED_ALPHA false
                  (IBitmapBase_GrayOut GRAYED_ALPHA true (SetBlend blend b)))
       = mBitmap b.
Proof.
  intros GRAYED_ALPHA blend b. repeat split.
Qed.

(** ** Drawing the tracks *)

Lemma buf_read_middle :
  forall (A : Type) (done rest : list A) (a : A),
    buf_read (done ++ a :: rest) (Z.of_nat (length done)) = Some a.
Proof.
  intros A done rest a. unfold buf_read.
  destruct (Z.leb_spec 0 (Z.of_nat (length done))); [ | lia ].
  destruct (Z.ltb_spec (Z.of_nat (length done)) (Z.of_nat (length (done ++ a :: rest))))
    as [_ | outside].
  - cbn [andb]. rewrite Nat2Z.id, nth_error_app2 by lia.
    rewrite Nat.sub_diag. reflexivity.
  - rewrite length_app in outside. simpl in outside. lia.
Qed.

(** One track, once its value and the four colors are at hand. *)
Lemma DrawTrack_paints :
  forall (K : Track_methods) (GetValue_v : int -> M double)
         (this : IVTrackControlBase.Object) (r : IRECT) (chIdx : int)
         (pt : ParamTuple) (w' : World) (sh fg hl fr : IColor)
         (ops : list TrackDrawOp),
    GetValue_v chIdx (MakeWorld (IVTrackControlBase.control this) [])
      = Returned (value pt) w' ->
    GetColor (IVTrackControlBase.vector this) kSH = Some sh ->
    GetColor (IVTrackControlBase.vector this) kFG = Some fg ->
    GetColor (IVTrackControlBase.vector this) kHL = Some hl ->
    GetColor (IVTrackControlBase.vector this) kFR = Some fr ->
    IVTrackControlBase.DrawTrack GetValue_v this r chIdx ops
    = Returned tt
        (ops ++ track_ops
                  (IVTrackControlBase.mDirection (IVTrackControlBase.own this))
                  (IVTrackControlBase.mPeakSize (IVTrackControlBase.own this))
                  (IVTrackControlBase.mDrawTrackFrame (IVTrackControlBase.own this))
                  (mFrameThickness (IVTrackControlBase.vector this))
                  sh fg hl fr (r, pt)).
Proof.
  intros K GetValue_v this r chIdx pt w' sh fg hl fr ops read Hsh Hfg Hhl Hfr.
  unfold IVTrackControlBase.DrawTrack, IVTrackControlBase.DrawTrackBG,
    IVTrackControlBase.DrawTrackHandle, IVTrackControlBase.DrawPeak,
    IVTrackControlBase.value_of, track_ops.
  rewrite Hsh, Hfg, Hhl, Hfr.
  unfold bind at 1 2 3 4. cbn [deref ret IVTrackControlBase.paint].
  unfold bind at 1. rewrite read.
  destruct (IVTrackControlBase.mDrawTrackFrame (IVTrackControlBase.own this));
    unfold when, bind, deref, ret, IVTrackControlBase.paint; rewrite ?Hfr;
    cbn; rewrite <- ?app_assoc; reflexivity.
Qed.

(** The loop of [Draw] over the tracks not yet drawn. *)
Lemma Draw_tracks :
  forall (K : Track_methods) (GetValue_v : int -> M double)
         (this : IVTrackControlBase.Object) (sh fg hl fr : IColor),
    (forall (i : nat) (pt : ParamTuple),
        nth_error (mVals (IVTrackControlBase.control this)) i = Some pt ->
        exists w', GetValue_v (Z.of_nat i) (MakeWorld (IVTrackControlBase.control this) [])
                   = Returned (value pt) w') ->
    GetColor (IVTrackControlBase.vector this) kSH = Some sh ->
    GetColor (IVTrackControlBase.vector this) kFG = Some fg ->
    GetColor (IVTrackControlBase.vector this) kHL = Some hl ->
    GetColor (IVTrackControlBase.vector this) kFR = Some fr ->
    forall (rest_v : list ParamTuple) (rest_b : list IRECT)
           (done_v : list ParamTuple) (done_b : list IRECT)
           (ops : list TrackDrawOp),
      mVals (IVTrackControlBase.control this) = done_v ++ rest_v ->
      IVTrackControlBase.mTrackBounds (IVTrackControlBase.own this) = done_b ++ rest_b ->
      length done_b = length done_v ->
      (length rest_v <= length rest_b)%nat ->
      for_count (length rest_v) (Z.of_nat (length done_v))
        (fun ch =>
           r <- deref (buf_read
                         (IVTrackControlBase.mTrackBounds (IVTrackControlBase.own this))
                         ch) ;;
           IVTrackControlBase.DrawTrack GetValue_v this r ch)
        ops
      = Returned tt
          (ops ++ flat_map
                    (track_ops
                       (IVTrackControlBase.mDirection (IVTrackControlBase.own this))
                       (IVTrackControlBase.mPeakSize (IVTrackControlBase.own this))
                       (IVTrackControlBase.mDrawTrackFrame (IVTrackControlBase.own this))
                       (mFrameThickness (IVTrackControlBase.vector this))
                       sh fg hl fr)
                    (combine rest_b rest_v)).
Proof.
  intros K GetValue_v this sh fg hl fr readable Hsh Hfg Hhl Hfr.
  induction rest_v as [ | pt rest_v IH];
    intros rest_b done_v done_b ops vals bounds same enough.
  - destruct rest_b; simpl; rewrite app_nil_r; reflexivity.
  - destruct rest_b as [ | r rest_b]; [ simpl in enough; lia | ].
    cbn [length for_count combine flat_map].
    unfold bind at 1 2.
    rewrite bounds, <- same, buf_read_middle. cbn [deref ret].
    destruct (readable (length done_v) pt) as [w' read].
    { rewrite vals, nth_error_app2 by lia. rewrite Nat.sub_diag. reflexivity. }
    rewrite same.
    rewrite (DrawTrack_paints K GetValue_v this r (Z.of_nat (length done_v)) pt w'
               sh fg hl fr ops read Hsh Hfg Hhl Hfr).
    replace (Z.of_nat (length done_v) + 1) with (Z.of_nat (length (done_v ++ [pt])))
      by (rewrite length_app; simpl; lia).
    rewrite <- bounds.
    rewrite (IH rest_b (done_v ++ [pt]) (done_b ++ [r])).
    + rewrite <- app_assoc. reflexivity.
    + rewrite <- app_assoc. exact vals.
    + rewrite <- app_assoc. exact bounds.
    + rewrite !length_app. simpl. lia.
    + simpl in enough. lia.
Qed.

(** X17.  [IVTrackControlBase::Draw] on a control whose palette stores a color,
    whose values can all be read and which has a track rectangle for every
    value: it paints the background rectangle, then for each value in
    ascending index order the track background, the filled fraction for that
    value and its peak, and the track frame if that is on, and last the outer
    frame if the frame is on: 1 + N * (3 or 4) + (0 or 1) operations for N
    values. *)
Theorem IVTrackControlBase_Draw_order :
  forall (K : Track_methods) (GetValue_v : int -> M double)
         (this : IVTrackControlBase.Object) (ops : list TrackDrawOp),
    mColors (IVTrackControlBase.vector this) <> [] ->
    (length (mVals (IVTrackControlBase.control this))
     <= length (IVTrackControlBase.mTrackBounds (IVTrackControlBase.own this)))%nat ->
    (forall (i : nat) (pt : ParamTuple),
        nth_error (mVals (IVTrackControlBase.control this)) i = Some pt ->
        exists w', GetValue_v (Z.of_nat i) (MakeWorld (IVTrackControlBase.control this) [])
                   = Returned (value pt) w') ->
    exists (bg sh fg hl fr : IColor) (painted : list TrackDrawOp),
      GetColor (IVTrackControlBase.vector this) kBG = Some bg
      /\ GetColor (IVTrackControlBase.vector this) kSH = Some sh
      /\ GetColor (IVTrackControlBase.vector this) kFG = Some fg
      /\ GetColor (IVTrackControlBase.vector this) kHL = Some hl
      /\ GetColor (IVTrackControlBase.vector this) kFR = Some fr
      /\ IVTrackControlBase.Draw GetValue_v this ops = Returned tt (ops ++ painted)
      /\ painted
         = [ TrackFillRect bg (mRECT (IVTrackControlBase.control this)) ]
           ++ flat_map
                (track_ops
                   (IVTrackControlBase.mDirection (IVTrackControlBase.own this))
                   (IVTrackControlBase.mPeakSize (IVTrackControlBase.own this))
                   (IVTrackControlBase.mDrawTrackFrame (IVTrackControlBase.own this))
                   (mFrameThickness (IVTrackControlBase.vector this))
                   sh fg hl fr)
                (combine (IVTrackControlBase.mTrackBounds (IVTrackControlBase.own this))
                   (mVals (IVTrackControlBase.control this)))
           ++ (if mDrawFrame (IVTrackControlBase.vector this)
               then [ TrackDrawRect fr (mRECT (IVTrackControlBase.control this)) None
                        (mFrameThickness (IVTrackControlBase.vector this)) ]
               else [])
      /\ length painted
         = (1 + length (mVals (IVTrackControlBase.control this))
                * (if IVTrackControlBase.mDrawTrackFrame (IVTrackControlBase.own this)
                   then 4 else 3)
            + (if mDrawFrame (IVTrackControlBase.vector this) then 1 else 0))%nat.
Proof.
  intros K GetValue_v this ops stored enough readable.
  destruct (GetColor_defined (IVTrackControlBase.vector this) kBG stored)
    as [bg Hbg]; [ unfold kBG; lia | ].
  destruct (GetColor_defined (IVTrackControlBase.vector this) kSH stored)
    as [sh Hsh]; [ unfold kSH; lia | ].
  destruct (GetColor_defined (IVTrackControlBase.vector this) kFG stored)
    as [fg Hfg]; [ unfold kFG; lia | ].
  destruct (GetColor_defined (IVTrackControlBase.vector this) kHL stored)
    as [hl Hhl]; [ unfold kHL; lia | ].
  destruct (GetColor_defined (IVTrackControlBase.vector this) kFR stored)
    as [fr Hfr]; [ unfold kFR; lia | ].
  exists bg, sh, fg, hl, fr. eexists.
  repeat (split; [ assumption | ]).
  split; [ | split; [ reflexivity | ] ].
  - unfold IVTrackControlBase.Draw, IVTrackControlBase.DrawFrame.
    rewrite Hbg, Hfr. unfold bind at 1 2. cbn [deref ret IVTrackControlBase.paint].
    unfold bind at 1. rewrite Nat2Z.id.
    rewrite (Draw_tracks K GetValue_v this sh fg hl fr readable Hsh Hfg Hhl Hfr
               (mVals (IVTrackControlBase.control this))
               (IVTrackControlBase.mTrackBounds (IVTrackControlBase.own this))
               [] [] _ eq_refl eq_refl eq_refl enough).
    destruct (mDrawFrame (IVTrackControlBase.vector this));
      unfold when, bind, deref, ret, IVTrackControlBase.paint;
      rewrite <- ?app_assoc; cbn; rewrite ?app_nil_r; reflexivity.
  - rewrite !length_app. cbn [length].
    assert (tracks : forall items : list (IRECT * ParamTuple),
               length (flat_map
                         (track_ops
                            (IVTrackControlBase.mDirection (IVTrackControlBase.own this))
                            (IVTrackControlBase.mPeakSize (IVTrackControlBase.own this))
                            (IVTrackControlBase.mDrawTrackFrame
                               (IVTrackControlBase.own this))
                            (mFrameThickness (IVTrackControlBase.vector this))
                            sh fg hl fr) items)
               = (length items
                  * (if IVTrackControlBase.mDrawTrackFrame (IVTrackControlBase.own this)
                     then 4 else 3))%nat).
    { induction items as [ | item items IH]; [ reflexivity | ].
      cbn [flat_map]. rewrite length_app, IH. unfold track_ops.
      destruct (IVTrackControlBase.mDrawTrackFrame (IVTrackControlBase.own this));
        simpl; lia. }
    rewrite tracks, length_combine, Nat.min_r by exact enough.
    destruct (mDrawFrame (IVTrackControlBase.vector this)); simpl; lia.
Qed.

Lemma IVTrackControlBase_Draw_order_witness :
  exists painted : list TrackDrawOp,
    @IVTrackControlBase.Draw sample_tracks GetValue three_tracks [] = Returned tt painted
    /\ length painted = 14%nat.
Proof.
  destruct (IVTrackControlBase_Draw_order sample_tracks GetValue three_tracks [])
    as (bg & sh & fg & hl & fr & painted & _ & _ & _ & _ & _ & run & _ & count).
  - discriminate.
  - simpl. lia.
  - intros i pt at_i. eexists.
    apply (GetValue_nth (Z.of_nat i) three_knobs [] pt); [ lia | ].
    rewrite Nat2Z.id. exact at_i.
  - exists painted. split; [ exact run | exact count ].
Defined.

Lemma buf_read_end :
  forall (A : Type) (buf : list A), buf_read buf (Z.of_nat (length buf)) = None.
Proof.
  intros A buf. unfold buf_read.
  destruct (Z.ltb_spec (Z.of_nat (length buf)) (Z.of_nat (length buf))); [ lia | ].
  rewrite andb_false_r. reflexivity.
Qed.

(** X18.  [Draw] reads one track rectangle per value without looking at how
    many there are: on a control with more values than track rectangles (what
    [SetNVals] leaves when it grows the values of a built control) the read of
    the first missing rectangle falls outside the buffer, where the palette
    stores a color and the values can be read. *)
Theorem IVTrackControlBase_Draw_missing_bounds :
  forall (K : Track_methods) (GetValue_v : int -> M double)
         (this : IVTrackControlBase.Object) (ops : list TrackDrawOp),
    mColors (IVTrackControlBase.vector this) <> [] ->
    (length (IVTrackControlBase.mTrackBounds (IVTrackControlBase.own this))
     < length (mVals (IVTrackControlBase.control this)))%nat ->
    (forall (i : nat) (pt : ParamTuple),
        nth_error (mVals (IVTrackControlBase.control this)) i = Some pt ->
        exists w', GetValue_v (Z.of_nat i) (MakeWorld (IVTrackControlBase.control this) [])
                   = Returned (value pt) w') ->
    IVTrackControlBase.Draw GetValue_v this ops = Failed InvalidAccess.
Proof.
  intros K GetValue_v this ops stored missing readable.
  destruct (GetColor_defined (IVTrackControlBase.vector this) kBG stored)
    as [bg Hbg]; [ unfold kBG; lia | ].
  destruct (GetColor_defined (IVTrackControlBase.vector this) kSH stored)
    as [sh Hsh]; [ unfold kSH; lia | ].
  destruct (GetColor_defined (IVTrackControlBase.vector this) kFG stored)
    as [fg Hfg]; [ unfold kFG; lia | ].
  destruct (GetColor_defined (IVTrackControlBase.vector this) kHL stored)
    as [hl Hhl]; [ unfold kHL; lia | ].
  destruct (GetColor_defined (IVTrackControlBase.vector this) kFR stored)
    as [fr Hfr]; [ unfold kFR; lia | ].
  assert (loop :
    forall (rest_v : list ParamTuple) (rest_b : list IRECT)
           (done_v : list ParamTuple) (done_b : list IRECT)
           (ops0 : list TrackDrawOp),
      mVals (IVTrackControlBase.control this) = done_v ++ rest_v ->
      IVTrackControlBase.mTrackBounds (IVTrackControlBase.own this) = done_b ++ rest_b ->
      length done_b = length done_v ->
      (length rest_b < length rest_v)%nat ->
      for_count (length rest_v) (Z.of_nat (length done_v))
        (fun ch =>
           r <- deref (buf_read
                         (IVTrackControlBase.mTrackBounds (IVTrackControlBase.own this))
                         ch) ;;
           IVTrackControlBase.DrawTrack GetValue_v this r ch)
        ops0
      = Failed InvalidAccess).
  { induction rest_v as [ | pt rest_v IH];
      intros rest_b done_v done_b ops0 vals bounds same fewer.
    - simpl in fewer. lia.
    - cbn [length for_count]. unfold bind at 1 2.
      destruct rest_b as [ | r rest_b].
      + rewrite app_nil_r in bounds. rewrite <- same, <- bounds, buf_read_end.
        reflexivity.
      + rewrite bounds, <- same, buf_read_middle. cbn [deref ret].
        destruct (readable (length done_v) pt) as [w' read].
        { rewrite vals, nth_error_app2 by lia. rewrite Nat.sub_diag. reflexivity. }
        rewrite same.
        rewrite (DrawTrack_paints K GetValue_v this r (Z.of_nat (length done_v)) pt w'
                   sh fg hl fr ops0 read Hsh Hfg Hhl Hfr).
        replace (Z.of_nat (length done_v) + 1)
          with (Z.of_nat (length (done_v ++ [pt])))
          by (rewrite length_app; simpl; lia).
        rewrite <- bounds.
        apply (IH rest_b (done_v ++ [pt]) (done_b ++ [r])).
        * rewrite <- app_assoc. exact vals.
        * rewrite <- app_assoc. exact bounds.
        * rewrite !length_app. simpl. lia.
        * simpl in fewer. lia. }
  unfold IVTrackControlBase.Draw.
  rewrite Hbg. unfold bind at 1 2. cbn [deref ret IVTrackControlBase.paint].
  unfold bind at 1. rewrite Nat2Z.id.
  rewrite (loop (mVals (IVTrackControlBase.control this))
             (IVTrackControlBase.mTrackBounds (IVTrackControlBase.own this))
             [] [] _ eq_refl eq_refl eq_refl missing).
  reflexivity.
Qed.

Lemma IVTrackControlBase_Draw_missing_bounds_witness :
  @IVTrackControlBase.Draw sample_tracks GetValue
    (IVTrackControlBase.MakeObject three_knobs styled_base
       (IVTrackControlBase.MakeMembers kVertical [ unit_square ]
          0%float 1%float 10%float 2%float 5%float true))
    []
  = Failed InvalidAccess.
Proof.
  apply (IVTrackControlBase_Draw_missing_bounds sample_tracks GetValue
           (IVTrackControlBase.MakeObject three_knobs styled_base
              (IVTrackControlBase.MakeMembers kVertical [ unit_square ]
                 0%float 1%float 10%float 2%float 5%float true))
           []).
  - discriminate.
  - simpl. lia.
  - intros i pt at_i. eexists.
    apply (GetValue_nth (Z.of_nat i) three_knobs [] pt); [ lia | ].
    rewrite Nat2Z.id. exact at_i.
Defined.
